(** * Finite-size charge corrections of doped: eFNV (Kumagai) and FNV (Freysoldt)

    A shallow embedding of [doped/corrections.py].  Python floats are IEEE
    binary64 numbers (Rocq's primitive [float]), Python ints are [Z], raised
    exceptions are the [Err] branch of [Result].  The numerical engines that
    the module calls (pydefect's Ewald sum, site mapping and
    ExtendedFnvCorrection, pymatgen's lattices and FNV routine, numpy,
    matplotlib) are collaborators: they appear as the fields of the class
    [Collaborators], and every statement below holds for all of them.

    Left out of the entry points, as they do not bear on what is returned or
    raised: the lines printed under [verbose], the warning filters, the font
    installation, and the call of [_monty_decode_nested_dicts], which
    replaces serialised dictionaries of the metadata by the objects they
    encode and neither adds nor removes a top-level key.  That function is
    embedded on its own further down. *)

From Stdlib Require Import ZArith Floats Bool.
From stdpp Require Import gmap strings list pretty.

Set Warnings "-inexact-float".
Local Open Scope Z_scope.

(** ** Exceptions and results *)

Inductive PyError : Type :=
  | ValueError (msg : string)
  | TypeError (msg : string)
  | KeyError (key : string)
  | IndexError
  | AttributeError (attr : string)
  | SupercellError (msg : string)
  | CollaboratorError (msg : string).

Inductive Result (A : Type) : Type :=
  | Ok (a : A)
  | Err (e : PyError).
Arguments Ok {A} a.
Arguments Err {A} e.

#[global] Instance Result_ret : MRet Result := fun A a => Ok a.
#[global] Instance Result_bind : MBind Result := fun A B k r =>
  match r with
  | Ok a => k a
  | Err e => Err e
  end.
#[global] Instance Result_fmap : FMap Result := fun A B g r =>
  match r with
  | Ok a => Ok (g a)
  | Err e => Err e
  end.

Definition is_Ok {A} (r : Result A) : bool :=
  match r with Ok _ => true | Err _ => false end.

Definition raises {A} (r : Result A) : Prop := exists e, r = Err e.

(** [xs[i]] on a Python sequence with a non-negative index. *)
Definition index {A} (xs : list A) (i : nat) : Result A :=
  match xs !! i with
  | Some x => Ok x
  | None => Err IndexError
  end.

(** ** Numbers *)

(** [float(n)] for a Python int: the nearest binary64 value.  Python raises
    OverflowError beyond the binary64 range, where this conversion gives an
    infinity; charge states are far below it. *)
Definition float_of_Z (n : Z) : float :=
  SF2Prim (binary_normalize prec emax n 0 false).

Definition positive_finite (d : float) : bool :=
  ((0 <? d) && (d <? infinity))%float.

(** ** Data model *)

Definition Coords := list float.
Definition Matrix := list (list float).

Record Lattice := { matrix : Matrix }.

Record PeriodicSite := {
  specie : string;
  frac_coords : Coords }.

Record Structure := {
  lattice : Lattice;
  struct_sites : list PeriodicSite }.

(** pydefect's CalcResults, as far as the module fills and reads it. *)
Record CalcResults := {
  structure : Structure;
  energy : float;
  magnetization : float;
  potentials : list float }.

Record PotentialSite := {
  ps_specie : string;
  distance : float;
  potential : float;
  pc_potential : option float }.

Record ExtendedFnvCorrection := {
  charge : Z;
  point_charge_correction : float;
  defect_region_radius : float;
  sites : list PotentialSite;
  defect_coords : Coords }.

Record Outcar := { electrostatic_potential : option (list float) }.

(** The dielectric as a caller may pass it. *)
Inductive Dielectric : Type :=
  | DScalar (d : float)
  | DVector (v : list float)
  | DMatrix (m : list (list float)).

(** What a caller may pass as LOCPOT or OUTCAR: a path, a parsed object, a
    dictionary of planar averages, or a value of another type; [InOther]
    records the type's name and the value's truthiness. *)
Inductive PmgInput (Locpot PlanarDict : Type) : Type :=
  | InPath (path : string)
  | InLocpot (l : Locpot)
  | InOutcar (o : Outcar)
  | InDict (d : PlanarDict)
  | InOther (type_name : string) (truthy : bool).
Arguments InPath {Locpot PlanarDict} path.
Arguments InLocpot {Locpot PlanarDict} l.
Arguments InOutcar {Locpot PlanarDict} o.
Arguments InDict {Locpot PlanarDict} d.
Arguments InOther {Locpot PlanarDict} type_name truthy.

Inductive ObjType := locpot | outcar.

Definition obj_type_name (t : ObjType) : string :=
  match t with locpot => "locpot" | outcar => "outcar" end.
Definition obj_type_upper (t : ObjType) : string :=
  match t with locpot => "LOCPOT" | outcar => "OUTCAR" end.
Definition obj_type_capitalised (t : ObjType) : string :=
  match t with locpot => "Locpot" | outcar => "Outcar" end.

(** ** Opaque objects of the collaborating libraries *)

Class Carriers := {
  Locpot : Type;      (* pymatgen's parsed LOCPOT *)
  MplObject : Type;   (* a matplotlib figure or axes *)
  FnvKwargs : Type    (* keyword arguments forwarded to pymatgen's FNV *) }.

(** [{i: Locpot.get_average_along_axis(i) for i in [0,1,2]}] *)
Abbreviation PlanarDict := (gmap Z (list float)).

(** ** Plot data of the FNV method *)

Inductive PlotValue : Type :=
  | PVArray (xs : list float)
  | PVFloat (x : float)
  | PVWindow (lo hi : Z).

(** The dictionary stored under [pot_plot_data]: keys [x], [Vr], [dft_diff],
    [short_range], [check], [shift]. *)
Abbreviation PotPlotData := (gmap string PlotValue).
(** The per-axis plot data: a dictionary holding [pot_plot_data]. *)
Abbreviation PlotData := (gmap string (gmap string PlotValue)).

Section DataModel.
Context `{Carriers}.

(** [defect_entry.calculation_metadata], read with [.get(key, None)] at the
    fixed keys below; an absent key and a stored [None] are both [None]. *)
Record CalculationMetadata := {
  md_dielectric : option Dielectric;
  md_defect_locpot_dict : option (PmgInput Locpot PlanarDict);
  md_bulk_locpot_dict : option (PmgInput Locpot PlanarDict);
  md_defect_site_potentials : option (list float);
  md_bulk_site_potentials : option (list float) }.

Record DefectEntry := {
  name : string;
  charge_state : Z;
  calculation_metadata : CalculationMetadata }.

Inductive ResultMetadata : Type :=
  | MetaKumagai (pydefect_ExtendedFnvCorrection : ExtendedFnvCorrection)
  | MetaFreysoldt (plot_data : gmap Z PlotData).

Record CorrectionResult := {
  correction_energy : float;
  metadata : ResultMetadata }.

(** What an entry point hands back: the result alone, or the result
    together with the matplotlib object. *)
Inductive Returned : Type :=
  | Alone (r : CorrectionResult)
  | WithFigure (r : CorrectionResult) (fig : MplObject).

(** Keyword arguments that [get_kumagai_correction] forwards to
    [doped_make_efnv_correction]. *)
Record EfnvKwargs := {
  kw_accuracy : option float;
  kw_unit_conversion : option float }.
End DataModel.

(** ** Collaborators *)

Class Collaborators `{Carriers} := {
  (* doped.utils.parsing *)
  get_locpot : string -> Result Locpot;
  get_outcar : string -> Result Outcar;
  _get_defect_supercell : DefectEntry -> Structure;
  _get_bulk_supercell : DefectEntry -> Structure;
  _get_defect_supercell_bulk_site_coords : DefectEntry -> Coords;
  (* pymatgen structures and lattices, numpy *)
  remove_oxidation_states : Structure -> Structure;
  lattice_eq : Lattice -> Lattice -> bool;
  np_allclose : Matrix -> Matrix -> float -> bool;
  volume : Lattice -> float;
  scale_lattice : Structure -> float -> Structure;
  lattice_str : Lattice -> string;
  get_distance_and_image : Lattice -> Coords -> Coords -> float;
  (* pydefect *)
  atom_mapping : Structure -> Structure -> list (nat * nat);
  defect_center_coord : Structure -> Structure -> Coords;
  ewald_accuracy : float;
  lattice_energy : Matrix -> Matrix -> float -> float;
  atomic_site_potential : Matrix -> Matrix -> float -> Coords -> float;
  calc_max_sphere_radius : Matrix -> float;
  efnv_correction_energy : ExtendedFnvCorrection -> float;
  (* pymatgen-analysis-defects *)
  freysoldt_get_freysoldt_correction :
    Z -> Matrix -> PmgInput Locpot PlanarDict -> PmgInput Locpot PlanarDict ->
    option Lattice -> Coords -> FnvKwargs -> Result CorrectionResult;
  (* matplotlib and the plotting helpers *)
  default_style_file : string;
  format_defect_name : string -> string;
  plt_subplots_1x3 : MplObject * list MplObject;
  draw_FNV :
    PlotValue -> PlotValue -> PlotValue -> PlotValue -> PlotValue -> PlotValue ->
    option string -> option MplObject -> string -> Result MplObject;
  site_potential_figure :
    string -> ExtendedFnvCorrection -> string -> Result MplObject;
  savefig : string -> Result unit }.

(** ** The module's functions *)

(** The default of the keyword [unit_conversion]:
    [elementary_charge * 1e10 / epsilon_0]. *)
Definition default_unit_conversion : float := 180.95128169876497%float.

Definition missing_message (var_name display_name : string) : string :=
  var_name +:+ " must be provided as an argument or be present in the `defect_entry` "
  +:+ "`calculation_metadata` (as `" +:+ display_name
  +:+ "`), neither of which is the case here!".

Definition _check_if_None_and_raise_error_if_so {A}
    (var : option A) (var_name display_name : string) : Result A :=
  match var with
  | None => Err (ValueError (missing_message var_name display_name))
  | Some v => Ok v
  end.

(** [value] is [entry.calculation_metadata.get(key, None)]; the checked value
    is returned. *)
Definition _get_and_check_metadata {A}
    (value : option A) (key display_name : string) : Result A :=
  _check_if_None_and_raise_error_if_so value display_name key.

Definition incomplete_outcar_message (outcar_info dir_type : string) : string :=
  "Unable to parse atomic core potentials from " +:+ dir_type +:+ " " +:+ outcar_info
  +:+ ". This can happen if `ICORELEVEL` was not set to 0 (= default) in the `INCAR`, or if "
  +:+ "the calculation was finished prematurely with a `STOPCAR`. The Kumagai charge "
  +:+ "correction cannot be computed without this data!".

(** [outcar_path] is [Some path] when the argument is a string. *)
Definition _raise_incomplete_outcar_error {A}
    (outcar_path : option string) (dir_type : string) : Result A :=
  let outcar_info :=
    match outcar_path with
    | Some path => "`OUTCAR` at " +:+ path
    | None => "`OUTCAR` object"
    end in
  Err (ValueError (incomplete_outcar_message outcar_info dir_type)).

Definition newline : string := String (Ascii.ascii_of_nat 10) EmptyString.

Definition lattice_mismatch_message (bulk_lattice defect_lattice : string) : string :=
  "Bulk and defect supercells have different lattices, and so the eFNV (Kumagai) "
  +:+ "correction cannot be computed!" +:+ newline +:+ "Bulk lattice:" +:+ newline
  +:+ bulk_lattice +:+ newline +:+ "Defect lattice:" +:+ newline +:+ defect_lattice.

Definition no_pot_plot_data_message : string :=
  "Input `plot_data` has no `pot_plot_data` entry. Cannot plot FNV potential "
  +:+ "alignment before running correction!".

(** Python truthiness of the values met in [x or y] and [if x]. *)
Definition truthy_input `{Carriers} (x : PmgInput Locpot PlanarDict) : bool :=
  match x with
  | InPath path => negb (String.eqb path "")
  | InLocpot _ | InOutcar _ => true
  | InDict d => negb (bool_decide (d = ∅))
  | InOther _ b => b
  end.

Definition truthy_string (s : string) : bool := negb (String.eqb s "").

Section Corrections.
Context {carriers : Carriers} {collaborators : Collaborators}.

Definition _check_if_str_and_get_pmg_obj
    (locpot_or_outcar : PmgInput Locpot PlanarDict) (obj_type : ObjType)
    : Result (PmgInput Locpot PlanarDict) :=
  match locpot_or_outcar with
  | InPath path =>
      match obj_type with
      | locpot => InLocpot <$> get_locpot path
      | outcar => InOutcar <$> get_outcar path
      end
  | InOther type_name _ =>
      Err (TypeError
        ("`" +:+ obj_type_name obj_type +:+ "` input must be either a path to a "
         +:+ obj_type_upper obj_type +:+ " file or a pymatgen "
         +:+ obj_type_capitalised obj_type +:+ " object, object, but got "
         +:+ type_name +:+ " instead."))
  | _ => Ok locpot_or_outcar
  end.

(** Attribute [electrostatic_potential] of the object that
    [_check_if_str_and_get_pmg_obj] let through. *)
Definition get_electrostatic_potential
    (obj : PmgInput Locpot PlanarDict) : Result (option (list float)) :=
  match obj with
  | InOutcar o => Ok (electrostatic_potential o)
  | _ => Err (AttributeError "electrostatic_potential")
  end.

(** ** [doped_make_efnv_correction] *)

(** One pass of the first loop for a site that is not excluded: the
    [PotentialSite] appended to [sites] and the entry appended to
    [rel_coords]. *)
Definition potential_site_of
    (calc_results perfect_calc_results : CalcResults) (defect_coords : Coords)
    (d p : nat) : Result (PotentialSite * Coords) :=
  site ← index (struct_sites (structure calc_results)) d;
  pot_d ← index (potentials calc_results) d;
  pot_p ← index (potentials perfect_calc_results) p;
  mret
    ({| ps_specie := specie site;
        distance :=
          get_distance_and_image (lattice (structure calc_results))
            defect_coords (frac_coords site);
        potential := (pot_d - pot_p)%float;
        pc_potential := None |},
     zip_with PrimFloat.sub (frac_coords site) defect_coords).

(** The first loop; [sites] and [rel_coords] grow in lock step and are kept
    as one list of pairs. *)
Fixpoint collect_sites
    (calc_results perfect_calc_results : CalcResults) (defect_coords : Coords)
    (excluded_indices : list Z) (mapping : list (nat * nat))
    : Result (list (PotentialSite * Coords)) :=
  match mapping with
  | [] => mret []
  | (d, p) :: rest =>
      if bool_decide (Z.of_nat d ∈ excluded_indices)
      then collect_sites calc_results perfect_calc_results defect_coords
             excluded_indices rest
      else
        entry ← potential_site_of calc_results perfect_calc_results defect_coords d p;
        entries ← collect_sites calc_results perfect_calc_results defect_coords
                    excluded_indices rest;
        mret (entry :: entries)
  end.

(** The body of the second loop.  The integer 0 stored for a neutral defect
    is written as the float 0. *)
Definition assign_pc_potential
    (ewald_matrix dielectric_tensor : Matrix) (accuracy : float)
    (charge : Z) (unit_conversion defect_region_radius : float)
    (entry : PotentialSite * Coords) : PotentialSite :=
  let '(site, rel_coord) := entry in
  if (defect_region_radius <? distance site)%float then
    {| ps_specie := ps_specie site;
       distance := distance site;
       potential := potential site;
       pc_potential :=
         if charge =? 0 then Some 0%float
         else Some (atomic_site_potential ewald_matrix dielectric_tensor accuracy rel_coord
                    * float_of_Z charge * unit_conversion)%float |}
  else site.

Definition doped_make_efnv_correction
    (charge : Z) (calc_results perfect_calc_results : CalcResults)
    (dielectric_tensor : Matrix)
    (defect_region_radius : option float) (defect_coords : option Coords)
    (accuracy unit_conversion : option float) (excluded_indices : option (list Z))
    : Result ExtendedFnvCorrection :=
  let accuracy := default ewald_accuracy accuracy in
  let unit_conversion := default default_unit_conversion unit_conversion in
  if negb (lattice_eq (lattice (structure calc_results))
                      (lattice (structure perfect_calc_results)))
  then Err (SupercellError
              "The lattice constants for defect and perfect models are different")
  else
    let defect_coords :=
      default (defect_center_coord (structure calc_results)
                 (structure perfect_calc_results)) defect_coords in
    let lattice := lattice (structure calc_results) in
    let excluded_indices := default [] excluded_indices in
    entries ← collect_sites calc_results perfect_calc_results defect_coords
                excluded_indices
                (atom_mapping (structure calc_results) (structure perfect_calc_results));
    let point_charge_correction :=
      if charge =? 0 then 0%float
      else (- lattice_energy (matrix lattice) dielectric_tensor accuracy
            * float_of_Z (charge ^ 2))%float in
    let defect_region_radius :=
      default (calc_max_sphere_radius (matrix lattice)) defect_region_radius in
    mret
      {| charge := charge;
         point_charge_correction := (point_charge_correction * unit_conversion)%float;
         defect_region_radius := defect_region_radius;
         sites :=
           assign_pc_potential (matrix lattice) dielectric_tensor accuracy charge
             unit_conversion defect_region_radius <$> entries;
         defect_coords := defect_coords |}.

(** ** Dielectric normalisation *)

Definition identity3 : Matrix :=
  [[1; 0; 0]; [0; 1; 0]; [0; 0; 1]]%float.

Definition diag3 (a b c : float) : Matrix :=
  [[a; 0; 0]; [0; b; 0]; [0; 0; c]]%float.

Definition shape_3x3 (m : list (list float)) : Prop :=
  length m = 3%nat /\ Forall (fun row => length row = 3%nat) m.

Definition dielectric_shape_message : string :=
  "Dielectric constant must be a scalar, a 3x1 matrix or a 3x3 matrix".

(** Modelled from the spec: [doped.analysis._convert_dielectric_to_tensor]
    is imported by the module but is not among the sources.  Section 4.1:
    a scalar becomes the scalar times the identity, a length-3 sequence the
    diagonal tensor, a 3x3 input passes unchanged, any other shape is an
    input-validation error. *)
Definition _convert_dielectric_to_tensor (dielectric : Dielectric) : Result Matrix :=
  match dielectric with
  | DScalar d => Ok (map (map (fun x => (d * x)%float)) identity3)
  | DVector [a; b; c] => Ok (diag3 a b c)
  | DVector _ => Err (ValueError dielectric_shape_message)
  | DMatrix m =>
      if bool_decide (shape_3x3 m) then Ok m
      else Err (ValueError dielectric_shape_message)
  end.

(** ** [plot_FNV] *)

Definition getitem {V} (d : gmap string V) (key : string) : Result V :=
  match d !! key with
  | Some v => Ok v
  | None => Err (KeyError key)
  end.

Definition plot_FNV (plot_data : PlotData) (title : option string)
    (ax : option MplObject) (style_file : option string) : Result MplObject :=
  pot_plot_data ← getitem plot_data "pot_plot_data";
  if bool_decide (pot_plot_data = ∅) then Err (ValueError no_pot_plot_data_message)
  else
    x ← getitem pot_plot_data "x";
    v_R ← getitem pot_plot_data "Vr";
    dft_diff ← getitem pot_plot_data "dft_diff";
    short_range ← getitem pot_plot_data "short_range";
    check ← getitem pot_plot_data "check";
    C ← getitem pot_plot_data "shift";
    let style_file :=
      match style_file with
      | Some f => if truthy_string f then f else default_style_file
      | None => default_style_file
      end in
    draw_FNV x v_R dft_diff short_range check C title ax style_file.

(** ** [get_freysoldt_correction] *)

Definition axis_label_dict (axis : Z) : Result string :=
  if axis =? 0 then Ok "$a$-axis"
  else if axis =? 1 then Ok "$b$-axis"
  else if axis =? 2 then Ok "$c$-axis"
  else Err (KeyError (pretty axis)).

(** [fnv_correction.metadata["plot_data"][axis]] *)
Definition fnv_plot_data (fnv_correction : CorrectionResult) (axis : Z)
    : Result PlotData :=
  match metadata fnv_correction with
  | MetaFreysoldt plot_data =>
      match plot_data !! axis with
      | Some pd => Ok pd
      | None => Err (KeyError (pretty axis))
      end
  | MetaKumagai _ => Err (KeyError "plot_data")
  end.

(** The dielectric argument, or the stored one, as a tensor. *)
Definition resolve_dielectric (defect_entry : DefectEntry)
    (dielectric : option Dielectric) : Result Matrix :=
  dielectric ←
    match dielectric with
    | None =>
        _get_and_check_metadata
          (md_dielectric (calculation_metadata defect_entry))
          "dielectric" "Dielectric constant"
    | Some d => Ok d
    end;
  _convert_dielectric_to_tensor dielectric.

(** [argument or _get_and_check_metadata(defect_entry, key, display_name)] *)
Definition locpot_or_metadata
    (argument stored : option (PmgInput Locpot PlanarDict))
    (key display_name : string) : Result (PmgInput Locpot PlanarDict) :=
  match argument with
  | Some a => if truthy_input a then Ok a
              else _get_and_check_metadata stored key display_name
  | None => _get_and_check_metadata stored key display_name
  end.

(** An argument that [x or y] passes over: [None] or a falsy value. *)
Definition absent (given : option (PmgInput Locpot PlanarDict)) : Prop :=
  match given with
  | None => True
  | Some a => truthy_input a = false
  end.

Definition is_dict (x : PmgInput Locpot PlanarDict) : bool :=
  match x with InDict _ => true | _ => false end.

Definition save_if_requested (filename : option string) : Result unit :=
  match filename with
  | Some f => if truthy_string f then savefig f else Ok tt
  | None => Ok tt
  end.

(** The three calls of [plot_FNV] of the loop over [range(3)]. *)
Fixpoint plot_directions (fnv_correction : CorrectionResult)
    (axs : list MplObject) (style_file : option string)
    (directions : list Z) : Result unit :=
  match directions with
  | [] => Ok tt
  | direction :: rest =>
      plot_data ← fnv_plot_data fnv_correction direction;
      ax ← index axs (Z.to_nat direction);
      title ← axis_label_dict direction;
      _ ← plot_FNV plot_data (Some title) (Some ax) style_file;
      plot_directions fnv_correction axs style_file rest
  end.

(** The plotting part of [get_freysoldt_correction]: everything after the
    early return. *)
Definition freysoldt_figure (fnv_correction : CorrectionResult)
    (filename : option string) (axis : option Z) (style_file : option string)
    : Result MplObject :=
  fig ←
    match axis with
    | None =>
        let '(fig, axs) := plt_subplots_1x3 in
        _ ← plot_directions fnv_correction axs style_file [0; 1; 2];
        Ok fig
    | Some axis =>
        plot_data ← fnv_plot_data fnv_correction axis;
        title ← axis_label_dict axis;
        plot_FNV plot_data (Some title) None None
    end;
  _ ← save_if_requested filename;
  Ok fig.

(** The correction itself: the part of [get_freysoldt_correction] before
    the early return. *)
Definition freysoldt_correction_result (defect_entry : DefectEntry)
    (dielectric : option Dielectric)
    (defect_locpot bulk_locpot : option (PmgInput Locpot PlanarDict))
    (kwargs : FnvKwargs) : Result CorrectionResult :=
  dielectric ← resolve_dielectric defect_entry dielectric;
  defect_locpot ←
    locpot_or_metadata defect_locpot
      (md_defect_locpot_dict (calculation_metadata defect_entry))
      "defect_locpot_dict" "Defect LOCPOT";
  bulk_locpot ←
    locpot_or_metadata bulk_locpot
      (md_bulk_locpot_dict (calculation_metadata defect_entry))
      "bulk_locpot_dict" "Bulk LOCPOT";
  defect_locpot ← _check_if_str_and_get_pmg_obj defect_locpot locpot;
  bulk_locpot ← _check_if_str_and_get_pmg_obj bulk_locpot locpot;
  freysoldt_get_freysoldt_correction
    (charge_state defect_entry) dielectric defect_locpot bulk_locpot
    (if is_dict defect_locpot
     then Some (lattice (_get_defect_supercell defect_entry)) else None)
    (_get_defect_supercell_bulk_site_coords defect_entry)
    kwargs.

Definition get_freysoldt_correction (defect_entry : DefectEntry)
    (dielectric : option Dielectric)
    (defect_locpot bulk_locpot : option (PmgInput Locpot PlanarDict))
    (plot : bool) (filename : option string) (axis : option Z)
    (style_file : option string) (kwargs : FnvKwargs) : Result Returned :=
  fnv_correction ←
    freysoldt_correction_result defect_entry dielectric defect_locpot bulk_locpot kwargs;
  if negb plot && bool_decide (filename = None) then Ok (Alone fnv_correction)
  else
    fig ← freysoldt_figure fnv_correction filename axis style_file;
    Ok (WithFigure fnv_correction fig).

(** ** [get_kumagai_correction] *)

(** The site potentials of one side: [-1 * electrostatic_potential] of the
    supplied OUTCAR, or the stored potentials. *)
Definition site_potentials
    (outcar_arg : option (PmgInput Locpot PlanarDict)) (stored : option (list float))
    (dir_type key display_name : string) : Result (list float) :=
  match outcar_arg with
  | Some o =>
      obj ← _check_if_str_and_get_pmg_obj o outcar;
      pot ← get_electrostatic_potential obj;
      match pot with
      | None => _raise_incomplete_outcar_error None dir_type
      | Some v => Ok (map (fun x => (-1 * x)%float) v)
      end
  | None => _get_and_check_metadata stored key display_name
  end.

(** The bulk supercell after the lattice check of the entry point. *)
Definition match_bulk_lattice (bulk_supercell defect_supercell : Structure)
    : Result Structure :=
  if negb (lattice_eq (lattice bulk_supercell) (lattice defect_supercell)) then
    if np_allclose (matrix (lattice bulk_supercell))
         (matrix (lattice defect_supercell)) 1e-2%float
    then Ok (scale_lattice bulk_supercell (volume (lattice defect_supercell)))
    else Err (ValueError
                (lattice_mismatch_message (lattice_str (lattice bulk_supercell))
                   (lattice_str (lattice defect_supercell))))
  else Ok bulk_supercell.

Definition calc_results_for_eFNV (supercell : Structure)
    (site_potentials : list float) : CalcResults :=
  {| structure := supercell;
     energy := infinity;
     magnetization := infinity;
     potentials := site_potentials |}.

(** The call of [doped_make_efnv_correction] made by the entry point. *)
Definition kumagai_efnv_correction (defect_entry : DefectEntry)
    (dielectric : Matrix) (defect_site_potentials bulk_site_potentials : list float)
    (defect_supercell bulk_supercell : Structure)
    (defect_region_radius : option float) (excluded_indices : option (list Z))
    (kwargs : EfnvKwargs) : Result ExtendedFnvCorrection :=
  doped_make_efnv_correction
    (charge_state defect_entry)
    (calc_results_for_eFNV defect_supercell defect_site_potentials)
    (calc_results_for_eFNV bulk_supercell bulk_site_potentials)
    dielectric defect_region_radius
    (Some (_get_defect_supercell_bulk_site_coords defect_entry))
    (kw_accuracy kwargs) (kw_unit_conversion kwargs) excluded_indices.

(** The object built by [doped_make_efnv_correction] inside the entry
    point: everything up to the construction of the [CorrectionResult]. *)
Definition kumagai_efnv (defect_entry : DefectEntry)
    (dielectric : option Dielectric)
    (defect_region_radius : option float) (excluded_indices : option (list Z))
    (defect_outcar bulk_outcar : option (PmgInput Locpot PlanarDict))
    (kwargs : EfnvKwargs) : Result ExtendedFnvCorrection :=
  dielectric ← resolve_dielectric defect_entry dielectric;
  defect_site_potentials ←
    site_potentials defect_outcar
      (md_defect_site_potentials (calculation_metadata defect_entry))
      "defect" "defect_site_potentials" "Defect OUTCAR (for atomic site potentials)";
  bulk_site_potentials ←
    site_potentials bulk_outcar
      (md_bulk_site_potentials (calculation_metadata defect_entry))
      "bulk" "bulk_site_potentials" "Bulk OUTCAR (for atomic site potentials)";
  let defect_supercell := remove_oxidation_states (_get_defect_supercell defect_entry) in
  let bulk_supercell := remove_oxidation_states (_get_bulk_supercell defect_entry) in
  bulk_supercell ← match_bulk_lattice bulk_supercell defect_supercell;
  kumagai_efnv_correction defect_entry dielectric defect_site_potentials
    bulk_site_potentials defect_supercell bulk_supercell
    defect_region_radius excluded_indices kwargs.

Definition kumagai_correction_result (efnv_correction : ExtendedFnvCorrection)
    : CorrectionResult :=
  {| correction_energy := efnv_correction_energy efnv_correction;
     metadata := MetaKumagai efnv_correction |}.

(** The plotting part of [get_kumagai_correction]: everything after the
    early return. *)
Definition kumagai_figure (defect_entry : DefectEntry)
    (efnv_correction : ExtendedFnvCorrection)
    (filename style_file : option string) : Result MplObject :=
  let style_file :=
    match style_file with
    | Some f => if truthy_string f then f else default_style_file
    | None => default_style_file
    end in
  fig ← site_potential_figure
          (format_defect_name (name defect_entry) +:+ " - eFNV Site Potentials")
          efnv_correction style_file;
  _ ← save_if_requested filename;
  Ok fig.

(** The end of [get_kumagai_correction]: the [CorrectionResult] is built
    and returned, alone or with the figure. *)
Definition kumagai_return (defect_entry : DefectEntry)
    (efnv_correction : ExtendedFnvCorrection)
    (plot : bool) (filename style_file : option string) : Result Returned :=
  let kumagai_correction_result := kumagai_correction_result efnv_correction in
  if negb plot && bool_decide (filename = None) then Ok (Alone kumagai_correction_result)
  else
    fig ← kumagai_figure defect_entry efnv_correction filename style_file;
    Ok (WithFigure kumagai_correction_result fig).

Definition get_kumagai_correction (defect_entry : DefectEntry)
    (dielectric : option Dielectric)
    (defect_region_radius : option float) (excluded_indices : option (list Z))
    (defect_outcar bulk_outcar : option (PmgInput Locpot PlanarDict))
    (plot : bool) (filename style_file : option string)
    (kwargs : EfnvKwargs) : Result Returned :=
  efnv_correction ←
    kumagai_efnv defect_entry dielectric defect_region_radius excluded_indices
      defect_outcar bulk_outcar kwargs;
  kumagai_return defect_entry efnv_correction plot filename style_file.

(** ** The alignment constant *)

Definition sum_floats (xs : list float) : float :=
  foldl PrimFloat.add 0%float xs.

(** Modelled from the spec: the fitted mean offset is computed by pydefect
    ([average_potential_diff]), which is not among the sources.  Section
    4.3, step 6: the mean of (potential difference - model potential) over
    all sites with a model potential assigned. *)
Definition alignment_constant (sites : list PotentialSite) : float :=
  let residuals :=
    omap (fun site => (fun pc => (potential site - pc)%float) <$> pc_potential site)
      sites in
  (sum_floats residuals / float_of_Z (Z.of_nat (length residuals)))%float.
End Corrections.

(** ** A small concrete system

    A cubic 10 A cell with three mapped atoms around a defect at the origin,
    and simple stand-ins for the collaborators, so that the definitions above
    can be run on concrete inputs. *)

Module Toy.
#[export] Instance carriers : Carriers :=
  {| Locpot := unit; MplObject := nat; FnvKwargs := unit |}.

Definition cubic (a : float) : Lattice := {| matrix := diag3 a a a |}.

Definition atoms : list PeriodicSite :=
  [ {| specie := "Te"; frac_coords := [0.125; 0; 0]%float |};
    {| specie := "Cd"; frac_coords := [0.5; 0.5; 0]%float |};
    {| specie := "Cd"; frac_coords := [0.5; 0; 0.5]%float |} ].

Definition defect_cell : Structure :=
  {| lattice := cubic 10; struct_sites := atoms |}.

(** The bulk cell of the entry named [strained] is 0.005 A longer along
    every axis, that of the entry named [stretched] along the first axis
    only. *)
Definition bulk_cell (entry_name : string) : Structure :=
  {| lattice :=
       if String.eqb entry_name "strained" then cubic 10.005
       else if String.eqb entry_name "stretched"
            then {| matrix := diag3 10.005 10 10 |}
            else cubic 10;
     struct_sites := atoms |}.

Definition flatten (m : Matrix) : list float := concat m.

Definition within (atol : float) (a b : Matrix) : bool :=
  forallb (fun '(x, y) => (abs (x - y) <=? atol)%float) (zip (flatten a) (flatten b)).

Definition entry_at (m : Matrix) (i j : nat) : float :=
  default 0%float (m !! i ≫= fun row => row !! j).

Definition edge (m : Matrix) : float := entry_at m 0 0.

(** The volume of a cell with orthogonal axes. *)
Definition box_volume (m : Matrix) : float :=
  (entry_at m 0 0 * entry_at m 1 1 * entry_at m 2 2)%float.

(** Newton's iteration for the cube root, started at 1. *)
Definition cube_root (v : float) : float :=
  Nat.iter 8 (fun x => (x - (x * x * x - v) / (3 * x * x))%float) 1%float.

Definition rescale (s : Structure) (v : float) : Structure :=
  let ratio := cube_root (v / box_volume (matrix (lattice s)))%float in
  {| lattice := {| matrix := map (map (fun x => (x * ratio)%float)) (matrix (lattice s)) |};
     struct_sites := struct_sites s |}.

Definition norm2 (v : Coords) : float :=
  foldl PrimFloat.add 0%float ((fun x => (x * x)%float) <$> v).

Definition pot_plot : PotPlotData :=
  {[ "x" := PVArray [0; 5]%float; "Vr" := PVArray [0.5; 0.25]%float;
     "dft_diff" := PVArray [0.75; 0.5]%float;
     "short_range" := PVArray [0.25; 0.25]%float;
     "check" := PVWindow 0 1; "shift" := PVFloat 0.25%float ]}.

Definition axis_plot : PlotData := {[ "pot_plot_data" := pot_plot ]}.

Definition fnv_result (q : Z) : CorrectionResult :=
  {| correction_energy := (0.125 * float_of_Z (q * q))%float;
     metadata := MetaFreysoldt {[ 0 := axis_plot; 1 := axis_plot; 2 := axis_plot ]} |}.

#[export] Instance collaborators : Collaborators :=
  {| get_locpot := fun _ => Ok tt;
     get_outcar := fun _ => Ok {| electrostatic_potential := Some [-1; -0.75; -0.75]%float |};
     _get_defect_supercell := fun _ => defect_cell;
     _get_bulk_supercell := fun entry => bulk_cell (name entry);
     _get_defect_supercell_bulk_site_coords := fun _ => [0; 0; 0]%float;
     remove_oxidation_states := fun s => s;
     lattice_eq := fun a b => within 1e-8%float (matrix a) (matrix b);
     np_allclose := fun a b atol => within atol a b;
     volume := fun l => box_volume (matrix l);
     scale_lattice := rescale;
     lattice_str := fun _ => "cubic";
     get_distance_and_image := fun l a b =>
       (edge (matrix l) * sqrt (norm2 (zip_with PrimFloat.sub b a)))%float;
     atom_mapping := fun s _ => (fun i => (i, i)) <$> seq 0 (length (struct_sites s));
     defect_center_coord := fun _ _ => [0; 0; 0]%float;
     ewald_accuracy := 0.5%float;
     lattice_energy := fun _ _ _ => (-0.0009765625)%float;
     atomic_site_potential := fun _ _ _ rel => (0.0009765625 * norm2 rel)%float;
     calc_max_sphere_radius := fun m => (edge m / 2)%float;
     efnv_correction_energy := fun c =>
       (point_charge_correction c
        - alignment_constant (sites c) * float_of_Z (charge c))%float;
     freysoldt_get_freysoldt_correction := fun q _ _ _ _ _ _ => Ok (fnv_result q);
     default_style_file := "doped.mplstyle";
     format_defect_name := fun n => n;
     plt_subplots_1x3 := (0%nat, [1; 2; 3]%nat);
     draw_FNV := fun _ _ _ _ _ _ _ ax _ => Ok (default 4%nat ax);
     site_potential_figure := fun _ _ _ => Ok 5%nat;
     savefig := fun _ => Ok tt |}.

Definition metadata_full : CalculationMetadata :=
  {| md_dielectric := Some (DScalar 9.13%float);
     md_defect_locpot_dict := Some (InDict {[ 0 := [0.5]%float ]});
     md_bulk_locpot_dict := Some (InDict {[ 0 := [0.25]%float ]});
     md_defect_site_potentials := Some [1; 0.75; 0.75]%float;
     md_bulk_site_potentials := Some [0.5; 0.5; 0.5]%float |}.


Definition entry (entry_name : string) (q : Z) : DefectEntry :=
  {| name := entry_name; charge_state := q; calculation_metadata := metadata_full |}.


Definition no_kwargs : EfnvKwargs :=
  {| kw_accuracy := None; kw_unit_conversion := None |}.

Definition calc (pots : list float) : CalcResults :=
  calc_results_for_eFNV defect_cell pots.

(** [doped_make_efnv_correction] on the toy cell for charge [q]. *)
Definition efnv (q : Z) (excluded_indices : option (list Z)) : Result ExtendedFnvCorrection :=
  doped_make_efnv_correction q (calc [1; 0.75; 0.75]%float) (calc [0.5; 0.5; 0.5]%float)
    (diag3 9.13 9.13 9.13) None (Some [0; 0; 0]%float) None None excluded_indices.

(** Keyword-free calls of the entry points. *)
Definition kumagai (defect_entry : DefectEntry) (dielectric : option Dielectric)
    (excluded_indices : option (list Z)) (plot : bool) : Result Returned :=
  get_kumagai_correction defect_entry dielectric None excluded_indices None None
    plot None None no_kwargs.

Definition freysoldt (defect_entry : DefectEntry) (dielectric : option Dielectric)
    (plot : bool) (axis : option Z) : Result Returned :=
  get_freysoldt_correction defect_entry dielectric None None plot None axis None tt.

Definition empty_plot : PlotData := {[ "pot_plot_data" := ∅ ]}.

Definition lattices_agree (a b : Structure) : bool := lattice_eq (lattice a) (lattice b).

Definition defect_supercell_of (defect_entry : DefectEntry) : Structure :=
  remove_oxidation_states (_get_defect_supercell defect_entry).

(** The bulk supercell of the entry after [scale_lattice]. *)
Definition rescaled_bulk_of (defect_entry : DefectEntry) : Structure :=
  scale_lattice (remove_oxidation_states (_get_bulk_supercell defect_entry))
    (volume (lattice (defect_supercell_of defect_entry))).
End Toy.

(** ** The small system with its bulk atoms in another order

    The collaborators of [Toy], except that the atom mapping pairs every
    defect atom with the bulk atom at the same fractional coordinates. *)

Module Reordered.
Definition same_coords (a b : Coords) : bool :=
  bool_decide (length a = length b)
  && forallb (fun '(x, y) => (x =? y)%float) (zip a b).

Definition match_atoms (defect bulk : Structure) : list (nat * nat) :=
  omap (fun '(d, site) =>
          (fun found => (d, found.1))
            <$> list_find (fun b => same_coords (frac_coords site) (frac_coords b) = true)
                  (struct_sites bulk))
    (imap (fun d site => (d, site)) (struct_sites defect)).

#[export] Instance collaborators : @Collaborators Toy.carriers :=
  {| get_locpot := get_locpot (Collaborators := Toy.collaborators);
     get_outcar := get_outcar (Collaborators := Toy.collaborators);
     _get_defect_supercell := _get_defect_supercell (Collaborators := Toy.collaborators);
     _get_bulk_supercell := _get_bulk_supercell (Collaborators := Toy.collaborators);
     _get_defect_supercell_bulk_site_coords :=
       _get_defect_supercell_bulk_site_coords (Collaborators := Toy.collaborators);
     remove_oxidation_states := remove_oxidation_states (Collaborators := Toy.collaborators);
     lattice_eq := lattice_eq (Collaborators := Toy.collaborators);
     np_allclose := np_allclose (Collaborators := Toy.collaborators);
     volume := volume (Collaborators := Toy.collaborators);
     scale_lattice := scale_lattice (Collaborators := Toy.collaborators);
     lattice_str := lattice_str (Collaborators := Toy.collaborators);
     get_distance_and_image := get_distance_and_image (Collaborators := Toy.collaborators);
     atom_mapping := match_atoms;
     defect_center_coord := defect_center_coord (Collaborators := Toy.collaborators);
     ewald_accuracy := ewald_accuracy (Collaborators := Toy.collaborators);
     lattice_energy := lattice_energy (Collaborators := Toy.collaborators);
     atomic_site_potential := atomic_site_potential (Collaborators := Toy.collaborators);
     calc_max_sphere_radius := calc_max_sphere_radius (Collaborators := Toy.collaborators);
     efnv_correction_energy := efnv_correction_energy (Collaborators := Toy.collaborators);
     freysoldt_get_freysoldt_correction :=
       freysoldt_get_freysoldt_correction (Collaborators := Toy.collaborators);
     default_style_file := default_style_file (Collaborators := Toy.collaborators);
     format_defect_name := format_defect_name (Collaborators := Toy.collaborators);
     plt_subplots_1x3 := plt_subplots_1x3 (Collaborators := Toy.collaborators);
     draw_FNV := draw_FNV (Collaborators := Toy.collaborators);
     site_potential_figure := site_potential_figure (Collaborators := Toy.collaborators);
     savefig := savefig (Collaborators := Toy.collaborators) |}.

(** The bulk cell of [Toy] and the same cell with its atoms rotated by one
    place, each with its site potentials. *)
Definition bulk : CalcResults :=
  calc_results_for_eFNV Toy.defect_cell [0.5; 0.25; 0.125]%float.

Definition bulk_reordered : CalcResults :=
  calc_results_for_eFNV
    {| lattice := Toy.cubic 10;
       struct_sites :=
         [ {| specie := "Cd"; frac_coords := [0.5; 0; 0.5]%float |};
           {| specie := "Te"; frac_coords := [0.125; 0; 0]%float |};
           {| specie := "Cd"; frac_coords := [0.5; 0.5; 0]%float |} ] |}
    [0.125; 0.5; 0.25]%float.

Definition relabel (p : nat) : nat :=
  match p with
  | 0%nat => 1%nat
  | 1%nat => 2%nat
  | _ => 0%nat
  end.

Definition efnv (perfect_calc_results : CalcResults) : Result ExtendedFnvCorrection :=
  doped_make_efnv_correction (collaborators := collaborators) 1
    (Toy.calc [1; 0.75; 0.75]%float) perfect_calc_results
    (diag3 9.13 9.13 9.13) None (Some [0; 0; 0]%float) None None None.
End Reordered.

(** ** The small system with any Ewald sum

    The collaborators of [Toy] with the lattice energy and the atomic site
    potential of the Ewald sum left open, and a neutral defect on the same
    cell: defect region radius 5 A given by the caller, site potentials 1,
    0.75, 0.75 against 0.5, 0.5, 0.5 in the bulk. *)

Module AnyEwald.
#[export] Instance collaborators
    (energy : Matrix -> Matrix -> float -> float)
    (site_potential : Matrix -> Matrix -> float -> Coords -> float)
    : @Collaborators Toy.carriers :=
  {| get_locpot := get_locpot (Collaborators := Toy.collaborators);
     get_outcar := get_outcar (Collaborators := Toy.collaborators);
     _get_defect_supercell := _get_defect_supercell (Collaborators := Toy.collaborators);
     _get_bulk_supercell := _get_bulk_supercell (Collaborators := Toy.collaborators);
     _get_defect_supercell_bulk_site_coords :=
       _get_defect_supercell_bulk_site_coords (Collaborators := Toy.collaborators);
     remove_oxidation_states := remove_oxidation_states (Collaborators := Toy.collaborators);
     lattice_eq := lattice_eq (Collaborators := Toy.collaborators);
     np_allclose := np_allclose (Collaborators := Toy.collaborators);
     volume := volume (Collaborators := Toy.collaborators);
     scale_lattice := scale_lattice (Collaborators := Toy.collaborators);
     lattice_str := lattice_str (Collaborators := Toy.collaborators);
     get_distance_and_image := get_distance_and_image (Collaborators := Toy.collaborators);
     atom_mapping := atom_mapping (Collaborators := Toy.collaborators);
     defect_center_coord := defect_center_coord (Collaborators := Toy.collaborators);
     ewald_accuracy := ewald_accuracy (Collaborators := Toy.collaborators);
     lattice_energy := energy;
     atomic_site_potential := site_potential;
     calc_max_sphere_radius := calc_max_sphere_radius (Collaborators := Toy.collaborators);
     efnv_correction_energy := efnv_correction_energy (Collaborators := Toy.collaborators);
     freysoldt_get_freysoldt_correction :=
       freysoldt_get_freysoldt_correction (Collaborators := Toy.collaborators);
     default_style_file := default_style_file (Collaborators := Toy.collaborators);
     format_defect_name := format_defect_name (Collaborators := Toy.collaborators);
     plt_subplots_1x3 := plt_subplots_1x3 (Collaborators := Toy.collaborators);
     draw_FNV := draw_FNV (Collaborators := Toy.collaborators);
     site_potential_figure := site_potential_figure (Collaborators := Toy.collaborators);
     savefig := savefig (Collaborators := Toy.collaborators) |}.

Definition neutral_efnv
    (energy : Matrix -> Matrix -> float -> float)
    (site_potential : Matrix -> Matrix -> float -> Coords -> float)
    (excluded_indices : option (list Z)) : Result ExtendedFnvCorrection :=
  doped_make_efnv_correction (collaborators := collaborators energy site_potential) 0
    (Toy.calc [1; 0.75; 0.75]%float) (Toy.calc [0.5; 0.5; 0.5]%float)
    (diag3 9.13 9.13 9.13) (Some 5%float) (Some [0; 0; 0]%float) None None
    excluded_indices.
End AnyEwald.

(** ** [_monty_decode_nested_dicts]

    The metadata as reloaded from JSON: scalars, decoded objects, lists and
    dictionaries (insertion-ordered, as Python's).  [process_decoded] stands
    for [MontyDecoder().process_decoded]; an exception it raises is caught
    by the function and leaves the value where it was. *)

Inductive PyKey : Type :=
  | KStr (s : string)
  | KInt (n : Z).

#[global] Instance PyKey_eq_dec : EqDecision PyKey.
Proof. solve_decision. Defined.

#[warnings="-register-all"]
Inductive PyVal : Type :=
  | PyScalar (repr : string)
  | PyObject (obj : string)
  | PyList (items : list PyVal)
  | PyDict (items : list (PyKey * PyVal)).

(** [key in value] *)
Definition has_key (key : string) (items : list (PyKey * PyVal)) : bool :=
  bool_decide (KStr key ∈ items.*1).

(** [all(k not in value for k in ["@module", "@class"])] *)
Definition untagged (items : list (PyKey * PyVal)) : bool :=
  negb (has_key "@module" items) && negb (has_key "@class" items).

(** [all(k in value for k in ["@module", "@class"])] *)
Definition tagged (items : list (PyKey * PyVal)) : bool :=
  has_key "@module" items && has_key "@class" items.

(** [isinstance(i, dict)] with both tags *)
Definition tagged_dict (v : PyVal) : bool :=
  match v with
  | PyDict items => tagged items
  | _ => false
  end.

(** [[f(i) for i in value]]: the first exception ends the comprehension. *)
Fixpoint comprehension {A B} (f : A -> Result B) (value : list A) : Result (list B) :=
  match value with
  | [] => Ok []
  | i :: rest =>
      y ← f i;
      ys ← comprehension f rest;
      Ok (y :: ys)
  end.

Section MontyDecode.
Variable process_decoded : PyVal -> Result PyVal.

(** What the loop body leaves under [key] for a given [value]. *)
Fixpoint decode_value (value : PyVal) : PyVal :=
  match value with
  | PyDict items =>
      if untagged items
      then PyDict (map (fun kv => (kv.1, decode_value kv.2)) items)
      else if tagged items
           then match process_decoded value with
                | Ok decoded => decoded
                | Err _ => value
                end
           else value
  | PyList items =>
      if forallb tagged_dict items
      then match comprehension process_decoded items with
           | Ok decoded => PyList decoded
           | Err _ => value
           end
      else value
  | _ => value
  end.

(** The dictionary [d] after the call. *)
Definition _monty_decode_nested_dicts (d : list (PyKey * PyVal)) : list (PyKey * PyVal) :=
  map (fun kv => (kv.1, decode_value kv.2)) d.
End MontyDecode.

(** A value in which the function finds nothing to decode. *)
Fixpoint settled (value : PyVal) : bool :=
  match value with
  | PyDict items =>
      if untagged items then forallb (fun kv => settled kv.2) items
      else negb (tagged items)
  | PyList items =>
      match items with
      | [] => true
      | _ => negb (forallb tagged_dict items)
      end
  | _ => true
  end.

(** Induction over values, through the lists and dictionaries they nest. *)
Fixpoint PyVal_nested_ind (P : PyVal -> Prop)
    (Hscalar : forall repr, P (PyScalar repr))
    (Hobject : forall obj, P (PyObject obj))
    (Hlist : forall items, Forall P items -> P (PyList items))
    (Hdict : forall items, Forall (fun kv => P kv.2) items -> P (PyDict items))
    (value : PyVal) {struct value} : P value :=
  match value with
  | PyScalar repr => Hscalar repr
  | PyObject obj => Hobject obj
  | PyList items =>
      Hlist items
        ((fix each (l : list PyVal) : Forall P l :=
            match l with
            | [] => @List.Forall_nil _ P
            | x :: rest =>
                @List.Forall_cons _ P x rest
                  (PyVal_nested_ind P Hscalar Hobject Hlist Hdict x) (each rest)
            end) items)
  | PyDict items =>
      Hdict items
        ((fix each (l : list (PyKey * PyVal)) : Forall (fun kv => P kv.2) l :=
            match l with
            | [] => @List.Forall_nil _ _
            | kv :: rest =>
                @List.Forall_cons _ (fun kv => P kv.2) kv rest
                  (PyVal_nested_ind P Hscalar Hobject Hlist Hdict kv.2) (each rest)
            end) items)
  end.

(** ** Auxiliary notions for the properties *)

(** The site with its model potential negated. *)
Definition negate_pc_potential (site : PotentialSite) : PotentialSite :=
  {| ps_specie := ps_specie site;
     distance := distance site;
     potential := potential site;
     pc_potential := PrimFloat.opp <$> pc_potential site |}.

(** The keys that [plot_FNV] reads from [pot_plot_data], in order. *)
Definition pot_plot_keys : list string :=
  ["x"; "Vr"; "dft_diff"; "short_range"; "check"; "shift"].

Definition first_missing_key (pot_plot_data : PotPlotData) : option string :=
  find (fun key => bool_decide (pot_plot_data !! key = None)) pot_plot_keys.

(** Every mapped pair that is not excluded lies within the structure and
    the two lists of potentials. *)
Definition mapping_in_range (calc_results perfect_calc_results : CalcResults)
    (excluded_indices : list Z) (mapping : list (nat * nat)) : Prop :=
  Forall (fun dp =>
            Z.of_nat dp.1 ∈ excluded_indices \/
            ((dp.1 < length (struct_sites (structure calc_results)))%nat /\
             (dp.1 < length (potentials calc_results))%nat /\
             (dp.2 < length (potentials perfect_calc_results))%nat))
    mapping.

(** A stand-in decoder: a tagged dictionary whose [@class] is a scalar
    decodes to an object, anything else raises. *)
Definition toy_process_decoded (value : PyVal) : Result PyVal :=
  match value with
  | PyDict items =>
      match snd <$> list_find (fun kv => kv.1 = KStr "@class") items with
      | Some (_, PyScalar cls) => Ok (PyObject cls)
      | _ => Err (CollaboratorError "cannot decode")
      end
  | _ => Err (CollaboratorError "cannot decode")
  end.

Definition toy_lattice_dict : PyVal :=
  PyDict [(KStr "@module", PyScalar "pymatgen.core.lattice");
          (KStr "@class", PyScalar "Lattice");
          (KStr "matrix", PyList [])].

Definition toy_metadata : list (PyKey * PyVal) :=
  [(KStr "dielectric", PyScalar "9.13");
   (KStr "bulk", PyDict [(KStr "lattice", toy_lattice_dict); (KInt 0, PyList [])]);
   (KStr "sites", PyList [toy_lattice_dict; toy_lattice_dict]);
   (KStr "half", PyDict [(KStr "@module", PyScalar "m"); (KStr "inner", toy_lattice_dict)]);
   (KStr "mixed", PyList [toy_lattice_dict; PyScalar "1"])].

(** * Properties *)

(** ** Exact float facts used below *)

Lemma positive_finite_inv (d : float) :
  positive_finite d = true ->
  exists m e, Prim2SF d = S754_finite false m e /\ bounded prec emax m e = true.
Proof.
  unfold positive_finite. rewrite andb_true_iff, !ltb_spec.
  intros [Hpos Hfin]. pose proof (Prim2SF_valid d) as Hvalid.
  change (Prim2SF 0) with (S754_zero false) in Hpos.
  change (Prim2SF infinity) with (S754_infinity false) in Hfin.
  destruct (Prim2SF d) as [s|s| |s m e]; cbn in Hpos, Hfin; try discriminate.
  - destruct s; discriminate.
  - destruct s; try discriminate. exists m, e. split; [reflexivity|exact Hvalid].
Qed.

Lemma mul_one_exact (d : float) : positive_finite d = true -> (d * 1)%float = d.
Proof.
  intros Hd. destruct (positive_finite_inv d Hd) as (m & e & Hrepr & Hb).
  apply Prim2SF_inj. rewrite mul_spec, Hrepr.
  change (Prim2SF 1) with (S754_finite false 4503599627370496 (-52)).
  unfold SF64mul, SFmul. rewrite Pos.mul_comm.
  unfold bounded, canonical_mantissa in Hb.
  apply andb_true_iff in Hb. destruct Hb as [Hcanon Hle].
  apply Z.eqb_eq in Hcanon.
  unfold binary_round_aux, shr_fexp.
  change (4503599627370496 * m)%positive
    with (Nat.iter 52 xO m).
  cbn [Nat.iter nat_rect xorb].
  match goal with |- context [Zdigits2 (Z.pos ?M)] => set (shifted := M) end.
  assert (Hdigits : Zdigits2 (Z.pos shifted) = Z.pos (digits2_pos m) + 52).
  { unfold shifted. cbn [Zdigits2 digits2_pos]. rewrite !Pos2Z.inj_succ. lia. }
  rewrite Hdigits.
  replace (Z.pos (digits2_pos m) + 52 + (e + -52)) with (Z.pos (digits2_pos m) + e) by lia.
  rewrite Hcanon.
  replace (e - (e + -52)) with 52 by lia.
  unfold shr, shifted. cbn [SpecFloat.iter_pos shr_1 shr_record_of_loc orb].
  cbn [shr_m loc_of_shr_record round_nearest_even Zdigits2].
  replace (e + -52 + 52) with e by lia.
  rewrite Hcanon, Z.sub_diag. cbn [shr_m shr_record_of_loc].
  rewrite Hle. reflexivity.
Qed.

Lemma mul_zero_exact (d : float) : positive_finite d = true -> (d * 0)%float = 0%float.
Proof.
  intros Hd. destruct (positive_finite_inv d Hd) as (m & e & Hrepr & _).
  apply Prim2SF_inj. rewrite mul_spec, Hrepr. reflexivity.
Qed.

(** ** Results *)

Lemma bind_Ok_inv {A B} (r : Result A) (k : A -> Result B) (b : B) :
  r ≫= k = Ok b -> exists a, r = Ok a /\ k a = Ok b.
Proof. destruct r as [a|e]; cbn; [eauto | discriminate]. Qed.

Lemma bind_Err {A B} (r : Result A) (k : A -> Result B) (e : PyError) :
  r = Err e -> r ≫= k = Err e.
Proof. intros ->. reflexivity. Qed.

Lemma fmap_Ok_inv {A B} (r : Result A) (g : A -> B) (b : B) :
  g <$> r = Ok b -> exists a, r = Ok a /\ b = g a.
Proof. destruct r as [a|e]; cbn; [intros [= <-]; eauto | discriminate]. Qed.

Ltac invert_bind H :=
  let a := fresh "a" in
  let Ha := fresh "Hstep" in
  apply bind_Ok_inv in H; destruct H as (a & Ha & H).

Section EfnvProperties.
Context {carriers : Carriers} {collaborators : Collaborators}.

Implicit Types (calc_results perfect_calc_results : CalcResults).
Implicit Types (dielectric_tensor : Matrix) (excluded : list Z).

(** What a successful call of [doped_make_efnv_correction] has computed. *)
Lemma doped_make_efnv_correction_inv charge calc_results perfect_calc_results
    dielectric_tensor radius coords accuracy unit_conversion excluded_indices c :
  doped_make_efnv_correction charge calc_results perfect_calc_results dielectric_tensor
    radius coords accuracy unit_conversion excluded_indices = Ok c ->
  let lat := lattice (structure calc_results) in
  let dc := default (defect_center_coord (structure calc_results)
                       (structure perfect_calc_results)) coords in
  let acc := default ewald_accuracy accuracy in
  let uc := default default_unit_conversion unit_conversion in
  let R := default (calc_max_sphere_radius (matrix lat)) radius in
  lattice_eq lat (lattice (structure perfect_calc_results)) = true /\
  exists entries,
    collect_sites calc_results perfect_calc_results dc (default [] excluded_indices)
      (atom_mapping (structure calc_results) (structure perfect_calc_results))
    = Ok entries /\
    c = {| charge := charge;
           point_charge_correction :=
             ((if (charge =? 0)%Z then 0
               else - lattice_energy (matrix lat) dielectric_tensor acc
                    * float_of_Z (charge ^ 2)%Z) * uc)%float;
           defect_region_radius := R;
           sites := assign_pc_potential (matrix lat) dielectric_tensor acc charge uc R
                      <$> entries;
           defect_coords := dc |}.
Proof.
  unfold doped_make_efnv_correction. intros Hrun.
  destruct (lattice_eq _ _); cbn in Hrun; [|discriminate].
  split; [reflexivity|].
  invert_bind Hrun. injection Hrun as <-. eauto.
Qed.

(** The call returns as soon as the lattices agree and every mapped,
    non-excluded index is within the structures and potentials. *)
Lemma doped_make_efnv_correction_returns charge calc_results perfect_calc_results
    dielectric_tensor radius coords accuracy unit_conversion excluded_indices entries :
  lattice_eq (lattice (structure calc_results))
    (lattice (structure perfect_calc_results)) = true ->
  collect_sites calc_results perfect_calc_results
    (default (defect_center_coord (structure calc_results)
                (structure perfect_calc_results)) coords)
    (default [] excluded_indices)
    (atom_mapping (structure calc_results) (structure perfect_calc_results))
  = Ok entries ->
  is_Ok (doped_make_efnv_correction charge calc_results perfect_calc_results
           dielectric_tensor radius coords accuracy unit_conversion excluded_indices)
  = true.
Proof.
  unfold doped_make_efnv_correction. intros -> ->. reflexivity.
Qed.

(** The first loop visits the mapping in order, skips the excluded indices
    and records one entry for every other pair. *)
Lemma collect_sites_spec calc_results perfect_calc_results dc excluded mapping entries :
  collect_sites calc_results perfect_calc_results dc excluded mapping = Ok entries ->
  Forall2 (fun dp entry =>
             potential_site_of calc_results perfect_calc_results dc dp.1 dp.2 = Ok entry)
    (filter (fun dp => Z.of_nat dp.1 ∉ excluded) mapping) entries.
Proof.
  revert entries. induction mapping as [|[d p] rest IH]; intros entries Hrun.
  - injection Hrun as <-. constructor.
  - cbn [collect_sites] in Hrun. rewrite filter_cons. cbn [fst].
    case_bool_decide as Hin.
    + rewrite decide_False by (intros Hn; exact (Hn Hin)). auto.
    + rewrite decide_True by exact Hin.
      invert_bind Hrun. invert_bind Hrun. injection Hrun as <-.
      constructor; [exact Hstep | auto].
Qed.

Lemma elem_of_snoc (x i : Z) excluded :
  x ∈ excluded ++ [i] <-> x ∈ excluded \/ x = i.
Proof. rewrite elem_of_app, list_elem_of_singleton. reflexivity. Qed.

(** Excluding one more index is the same as dropping its pairs from the
    mapping. *)
Lemma collect_sites_exclude calc_results perfect_calc_results dc excluded (i : Z) mapping :
  collect_sites calc_results perfect_calc_results dc (excluded ++ [i]) mapping
  = collect_sites calc_results perfect_calc_results dc excluded
      (filter (fun dp => Z.of_nat dp.1 ≠ i) mapping).
Proof.
  induction mapping as [|[d p] rest IH]; [reflexivity|].
  cbn [collect_sites]. rewrite filter_cons. cbn [fst].
  destruct (decide (Z.of_nat d ≠ i)) as [Hne|Heq].
  - cbn [collect_sites].
    destruct (decide (Z.of_nat d ∈ excluded)) as [Hin|Hout].
    + rewrite !bool_decide_eq_true_2; [exact IH | exact Hin |].
      apply elem_of_snoc. left. exact Hin.
    + rewrite !bool_decide_eq_false_2; [rewrite IH; reflexivity | exact Hout |].
      rewrite elem_of_snoc. intros [Hin|Heq]; [exact (Hout Hin) | exact (Hne Heq)].
  - rewrite bool_decide_eq_true_2; [exact IH|].
    apply dec_stable in Heq. apply elem_of_snoc. right. exact Heq.
Qed.

(** A run that succeeds still succeeds on a mapping with fewer pairs, and
    records the entries of the pairs that remain. *)
Lemma collect_sites_filter calc_results perfect_calc_results dc excluded
    (keep : nat * nat -> Prop) `{!forall dp, Decision (keep dp)} mapping entries :
  collect_sites calc_results perfect_calc_results dc excluded mapping = Ok entries ->
  collect_sites calc_results perfect_calc_results dc excluded (filter keep mapping)
  = Ok (snd <$> filter (fun x => keep x.1)
                  (zip (filter (fun dp => Z.of_nat dp.1 ∉ excluded) mapping) entries)).
Proof.
  revert entries. induction mapping as [|[d p] rest IH]; intros entries Hrun.
  - injection Hrun as <-. reflexivity.
  - cbn [collect_sites] in Hrun.
    case_bool_decide as Hin.
    + rewrite (filter_cons_False (fun dp => Z.of_nat dp.1 ∉ excluded))
        by (intros Hn; exact (Hn Hin)).
      destruct (decide (keep (d, p))) as [Hk|Hk].
      * rewrite (filter_cons_True keep) by exact Hk.
        cbn [collect_sites]. rewrite bool_decide_eq_true_2 by exact Hin. auto.
      * rewrite (filter_cons_False keep) by exact Hk. auto.
    + rewrite (filter_cons_True (fun dp => Z.of_nat dp.1 ∉ excluded)) by exact Hin.
      invert_bind Hrun. invert_bind Hrun. injection Hrun as <-.
      cbn [zip zip_with].
      destruct (decide (keep (d, p))) as [Hk|Hk].
      * rewrite (filter_cons_True keep) by exact Hk.
        rewrite (filter_cons_True (fun x => keep x.1)) by exact Hk.
        cbn [collect_sites]. rewrite bool_decide_eq_false_2 by exact Hin.
        rewrite Hstep. cbn. rewrite (IH _ Hstep0). reflexivity.
      * rewrite (filter_cons_False keep) by exact Hk.
        rewrite (filter_cons_False (fun x => keep x.1)) by exact Hk. auto.
Qed.
End EfnvProperties.

Section EfnvClaims.
Context {carriers : Carriers} {collaborators : Collaborators}.

Lemma fmap_snd_filter_zip {K A B} (f : A -> B)
    (P : K * A -> Prop) (Q : K * B -> Prop)
    `{!forall x, Decision (P x)} `{!forall x, Decision (Q x)}
    (ks : list K) (xs : list A) :
  (forall k a, P (k, a) <-> Q (k, f a)) ->
  f <$> (snd <$> filter P (zip ks xs)) = snd <$> filter Q (zip ks (f <$> xs)).
Proof.
  intros HPQ. revert xs. induction ks as [|k ks IH]; intros [|x xs]; try reflexivity.
  cbn [zip zip_with fmap list_fmap].
  destruct (decide (P (k, x))) as [Hk|Hk].
  - rewrite (filter_cons_True P) by exact Hk.
    rewrite (filter_cons_True Q) by (apply HPQ; exact Hk).
    cbn. f_equal. apply IH.
  - rewrite (filter_cons_False P) by exact Hk.
    rewrite (filter_cons_False Q) by (rewrite <- HPQ; exact Hk).
    apply IH.
Qed.

(** C2: for a nonzero charge q the point-charge correction energy built by
    doped_make_efnv_correction, called without a unit_conversion keyword,
    is (-(Ewald lattice energy) * q**2) * 180.95128169876497; for q = 0 it
    is exactly 0.0. *)
Theorem point_charge_correction_formula (q : Z) (calc_results perfect_calc_results : CalcResults)
    (dielectric_tensor : Matrix) (radius : option float) (coords : option Coords)
    (accuracy : option float) (excluded_indices : option (list Z))
    (c : ExtendedFnvCorrection) :
  doped_make_efnv_correction q calc_results perfect_calc_results dielectric_tensor
    radius coords accuracy None excluded_indices = Ok c ->
  (q <> 0 ->
   point_charge_correction c
   = (- lattice_energy (matrix (lattice (structure calc_results))) dielectric_tensor
          (default ewald_accuracy accuracy)
      * float_of_Z (q ^ 2) * 180.95128169876497)%float)
  /\ (q = 0 -> point_charge_correction c = 0%float).
Proof.
  intros Hrun. apply doped_make_efnv_correction_inv in Hrun.
  destruct Hrun as (_ & entries & _ & ->). cbn [point_charge_correction].
  split.
  - intros Hq. apply Z.eqb_neq in Hq. rewrite Hq. reflexivity.
  - intros ->. reflexivity.
Qed.

(** What an entry of the first loop holds: the atom of the defect structure
    at index d and the two site potentials that were read. *)
Lemma potential_site_of_inv (calc_results perfect_calc_results : CalcResults)
    (dc : Coords) (d p : nat) (entry : PotentialSite * Coords) :
  potential_site_of calc_results perfect_calc_results dc d p = Ok entry ->
  exists atom pot_d pot_p,
    struct_sites (structure calc_results) !! d = Some atom /\
    potentials calc_results !! d = Some pot_d /\
    potentials perfect_calc_results !! p = Some pot_p /\
    entry =
      ({| ps_specie := specie atom;
          distance := get_distance_and_image (lattice (structure calc_results)) dc
                        (frac_coords atom);
          potential := (pot_d - pot_p)%float;
          pc_potential := None |},
       zip_with PrimFloat.sub (frac_coords atom) dc).
Proof.
  assert (Hindex : forall A (xs : list A) i x, index xs i = Ok x -> xs !! i = Some x).
  { intros A xs i x. unfold index. destruct (xs !! i); [|discriminate].
    intros [= <-]. reflexivity. }
  unfold potential_site_of. intros Hsite.
  invert_bind Hsite. invert_bind Hsite. invert_bind Hsite. injection Hsite as <-.
  eauto 10.
Qed.

(** C7: with a nonzero charge q, the sites of the returned object are the
    mapped, non-excluded atoms in order.  The site of the pair (d, p) has the
    species of atom d of the defect structure, the distance of that atom from
    the defect coordinates, and the potential of atom d minus the bulk
    potential of atom p.  When its distance exceeds the defect region radius
    it carries the Ewald atomic-site potential at the atom's coordinates
    relative to the defect, times q times the unit conversion; otherwise it
    keeps None.  The radius is the one supplied, or calc_max_sphere_radius
    of the lattice matrix when none is supplied. *)
Theorem model_potential_assignment (q : Z) (calc_results perfect_calc_results : CalcResults)
    (dielectric_tensor : Matrix) (radius : option float) (coords : option Coords)
    (accuracy unit_conversion : option float) (excluded_indices : option (list Z))
    (c : ExtendedFnvCorrection) :
  q <> 0 ->
  doped_make_efnv_correction q calc_results perfect_calc_results dielectric_tensor
    radius coords accuracy unit_conversion excluded_indices = Ok c ->
  let M := matrix (lattice (structure calc_results)) in
  let dc := default (defect_center_coord (structure calc_results)
                       (structure perfect_calc_results)) coords in
  let R := default (calc_max_sphere_radius M) radius in
  defect_region_radius c = R /\
  Forall2
    (fun dp site =>
       exists atom pot_d pot_p,
         struct_sites (structure calc_results) !! dp.1 = Some atom /\
         potentials calc_results !! dp.1 = Some pot_d /\
         potentials perfect_calc_results !! dp.2 = Some pot_p /\
         ps_specie site = specie atom /\
         distance site
         = get_distance_and_image (lattice (structure calc_results)) dc (frac_coords atom) /\
         potential site = (pot_d - pot_p)%float /\
         pc_potential site =
           if (R <? get_distance_and_image (lattice (structure calc_results)) dc
                      (frac_coords atom))%float
           then Some (atomic_site_potential M dielectric_tensor
                        (default ewald_accuracy accuracy)
                        (zip_with PrimFloat.sub (frac_coords atom) dc)
                      * float_of_Z q
                      * default default_unit_conversion unit_conversion)%float
           else None)
    (filter (fun dp => Z.of_nat dp.1 ∉ default [] excluded_indices)
       (atom_mapping (structure calc_results) (structure perfect_calc_results)))
    (sites c).
Proof.
  intros Hq Hrun M dc R. apply doped_make_efnv_correction_inv in Hrun.
  destruct Hrun as (_ & entries & Hentries & ->).
  cbn [defect_region_radius sites]. split; [reflexivity|].
  apply Forall2_fmap_r.
  pose proof (collect_sites_spec _ _ _ _ _ _ Hentries) as Hspec.
  eapply Forall2_impl; [exact Hspec|].
  intros dp entry Hsite. apply potential_site_of_inv in Hsite.
  destruct Hsite as (atom & pot_d & pot_p & Hatom & Hpot_d & Hpot_p & ->).
  exists atom, pot_d, pot_p.
  split; [exact Hatom|]. split; [exact Hpot_d|]. split; [exact Hpot_p|].
  unfold assign_pc_potential. cbn [distance ps_specie potential pc_potential].
  apply Z.eqb_neq in Hq. rewrite Hq. fold M dc R.
  destruct (R <? get_distance_and_image _ dc (frac_coords atom))%float; cbn; auto.
Qed.

(** C6 (amended): adding an index to excluded_indices never changes the
    point-charge term; it removes the sites mapped from that index from the
    list over which the alignment constant is averaged and leaves every
    other site as it was. *)
Theorem exclusion_keeps_point_charge_term (q : Z) (calc_results perfect_calc_results : CalcResults)
    (dielectric_tensor : Matrix) (radius : option float) (coords : option Coords)
    (accuracy unit_conversion : option float) (excluded_indices : option (list Z))
    (i : Z) (c : ExtendedFnvCorrection) :
  doped_make_efnv_correction q calc_results perfect_calc_results dielectric_tensor
    radius coords accuracy unit_conversion excluded_indices = Ok c ->
  exists c',
    doped_make_efnv_correction q calc_results perfect_calc_results dielectric_tensor
      radius coords accuracy unit_conversion (Some (default [] excluded_indices ++ [i]))
    = Ok c' /\
    point_charge_correction c' = point_charge_correction c /\
    sites c' =
      snd <$> filter (fun x => Z.of_nat x.1.1 ≠ i)
                (zip (filter (fun dp => Z.of_nat dp.1 ∉ default [] excluded_indices)
                        (atom_mapping (structure calc_results)
                           (structure perfect_calc_results)))
                     (sites c)).
Proof.
  intros Hrun. apply doped_make_efnv_correction_inv in Hrun.
  destruct Hrun as (Hlat & entries & Hentries & ->).
  unfold doped_make_efnv_correction. rewrite Hlat. cbn [negb].
  change (default [] (Some (default [] excluded_indices ++ [i])))
    with (default [] excluded_indices ++ [i]).
  rewrite collect_sites_exclude.
  rewrite (collect_sites_filter _ _ _ _ (fun dp => Z.of_nat dp.1 ≠ i) _ _ Hentries).
  cbn. eexists. split; [reflexivity|]. cbn [point_charge_correction sites].
  split; [reflexivity|].
  apply fmap_snd_filter_zip. intros k a. reflexivity.
Qed.
End EfnvClaims.

Ltac by_run := vm_compute; reflexivity.

Lemma point_charge_correction_formula_witness :
  exists c, Toy.efnv (-2) None = Ok c /\
    point_charge_correction c
    = (- (-0.0009765625) * float_of_Z ((-2) ^ 2) * 180.95128169876497)%float.
Proof.
  eexists. split; [by_run|].
  etransitivity.
  - refine (proj1 (point_charge_correction_formula (collaborators := Toy.collaborators) (-2)
                     (Toy.calc [1; 0.75; 0.75]%float) (Toy.calc [0.5; 0.5; 0.5]%float)
                     (diag3 9.13 9.13 9.13) None (Some [0; 0; 0]%float) None None _ _) _);
      [by_run | discriminate].
  - by_run.
Defined.

Lemma model_potential_assignment_witness :
  exists c, Toy.efnv 1 None = Ok c /\ defect_region_radius c = 5%float /\
    Forall2
      (fun dp site =>
         exists atom pot_d pot_p,
           Toy.atoms !! dp.1 = Some atom /\
           [1; 0.75; 0.75]%float !! dp.1 = Some pot_d /\
           [0.5; 0.5; 0.5]%float !! dp.2 = Some pot_p /\
           ps_specie site = specie atom /\
           distance site = (10 * sqrt (Toy.norm2 (frac_coords atom)))%float /\
           potential site = (pot_d - pot_p)%float /\
           pc_potential site =
             if (5 <? 10 * sqrt (Toy.norm2 (frac_coords atom)))%float
             then Some (0.0009765625 * Toy.norm2 (frac_coords atom)
                        * 1 * 180.95128169876497)%float
             else None)
      [(0, 0); (1, 1); (2, 2)]%nat (sites c).
Proof.
  eexists. split; [by_run|].
  pose proof (model_potential_assignment (collaborators := Toy.collaborators) 1
                (Toy.calc [1; 0.75; 0.75]%float) (Toy.calc [0.5; 0.5; 0.5]%float)
                (diag3 9.13 9.13 9.13) None (Some [0; 0; 0]%float) None None None
                _ ltac:(discriminate) ltac:(by_run)) as [Hradius Hsites].
  split; [rewrite Hradius; by_run|].
  eapply Forall2_impl; [exact Hsites|].
  intros dp site (atom & pot_d & pot_p & Hatom & Hpot_d & Hpot_p & Hs & Hd & Hp & Hpc).
  exists atom, pot_d, pot_p.
  split; [exact Hatom|]. split; [exact Hpot_d|]. split; [exact Hpot_p|].
  split; [exact Hs|]. rewrite Hd, Hp, Hpc.
  change (Toy.atoms !! dp.1 = Some atom) in Hatom.
  apply list_elem_of_lookup_2 in Hatom. unfold Toy.atoms in Hatom.
  repeat (apply elem_of_cons in Hatom;
          destruct Hatom as [->|Hatom];
          [split; [by_run | split; [reflexivity | by_run]]|]).
  apply elem_of_nil in Hatom. destruct Hatom.
Defined.

Lemma exclusion_keeps_point_charge_term_witness :
  exists c', Toy.efnv 1 (Some [1]) = Ok c' /\
    point_charge_correction c' = 0.17671023603395017%float.
Proof.
  eassert (Hbase : Toy.efnv 1 None = Ok _) by by_run.
  destruct (exclusion_keeps_point_charge_term (collaborators := Toy.collaborators) 1
              (Toy.calc [1; 0.75; 0.75]%float) (Toy.calc [0.5; 0.5; 0.5]%float)
              (diag3 9.13 9.13 9.13) None (Some [0; 0; 0]%float) None None None 1 _ Hbase)
    as (c' & Hrun & Hpc & _).
  exists c'. split; [exact Hrun|]. rewrite Hpc. by_run.
Defined.

(** C6 as stated fails, whatever the Ewald sum computes: for a neutral
    defect the code stores the model potential 0 at every sampled site
    without consulting the Ewald sum.  On the 10 A cell with defect region
    radius 5 A the two Cd atoms, 7.07 A from the defect, are sampled and
    both have the potential difference 0.25.  Atom 1 is in the sampling
    region, and excluding it leaves the alignment constant at 0.25. *)
Lemma exclusion_may_keep_alignment_constant :
  exists c c',
    (forall energy site_potential,
       AnyEwald.neutral_efnv energy site_potential None = Ok c /\
       AnyEwald.neutral_efnv energy site_potential (Some [1]) = Ok c') /\
    (exists site,
       sites c !! 1%nat = Some site /\
       (defect_region_radius c <? distance site)%float = true /\
       potential site = 0.25%float /\ pc_potential site = Some 0%float) /\
    length (sites c') = 2%nat /\
    alignment_constant (sites c) = 0.25%float /\
    alignment_constant (sites c') = 0.25%float.
Proof.
  eexists. eexists.
  split; [intros energy site_potential; split; vm_compute; reflexivity|].
  split; [eexists; repeat split; vm_compute; reflexivity|].
  repeat split; vm_compute; reflexivity.
Qed.

Section DielectricClaims.
Context {carriers : Carriers} {collaborators : Collaborators}.

Lemma convert_scalar (d : float) :
  positive_finite d = true ->
  _convert_dielectric_to_tensor (DScalar d) = Ok (diag3 d d d).
Proof.
  intros Hd. unfold _convert_dielectric_to_tensor, identity3, diag3. cbn [map].
  rewrite (mul_one_exact d Hd), (mul_zero_exact d Hd). reflexivity.
Qed.

Lemma convert_vector_other (v : list float) :
  length v <> 3%nat ->
  _convert_dielectric_to_tensor (DVector v) = Err (ValueError dielectric_shape_message).
Proof.
  destruct v as [|a [|b [|c [|x v]]]]; cbn; intros Hlen; try reflexivity.
  exfalso. apply Hlen. reflexivity.
Qed.

Lemma convert_matrix_other (m : list (list float)) :
  ~ shape_3x3 m ->
  _convert_dielectric_to_tensor (DMatrix m) = Err (ValueError dielectric_shape_message).
Proof.
  intros Hshape. unfold _convert_dielectric_to_tensor.
  rewrite bool_decide_eq_false_2 by exact Hshape. reflexivity.
Qed.

Lemma shape_diag3 (a b c : float) : shape_3x3 (diag3 a b c).
Proof. split; [reflexivity | repeat constructor]. Qed.

Lemma convert_matrix (m : list (list float)) :
  shape_3x3 m -> _convert_dielectric_to_tensor (DMatrix m) = Ok m.
Proof.
  intros Hshape. unfold _convert_dielectric_to_tensor.
  rewrite bool_decide_eq_true_2 by exact Hshape. reflexivity.
Qed.

(** The three spellings of an isotropic dielectric reach the engines as one
    tensor. *)
Lemma resolve_dielectric_isotropic (defect_entry : DefectEntry) (d : float) :
  positive_finite d = true ->
  resolve_dielectric defect_entry (Some (DScalar d)) = Ok (diag3 d d d) /\
  resolve_dielectric defect_entry (Some (DVector [d; d; d])) = Ok (diag3 d d d) /\
  resolve_dielectric defect_entry (Some (DMatrix (diag3 d d d))) = Ok (diag3 d d d).
Proof.
  intros Hd. unfold resolve_dielectric. cbn [mbind Result_bind].
  rewrite (convert_scalar d Hd), (convert_matrix _ (shape_diag3 d d d)). auto.
Qed.

(** A dielectric of any other shape stops both entry points at the
    normaliser. *)
Lemma resolve_dielectric_other (defect_entry : DefectEntry) (dielectric : Dielectric) :
  match dielectric with
  | DScalar _ => False
  | DVector v => length v <> 3%nat
  | DMatrix m => ~ shape_3x3 m
  end ->
  resolve_dielectric defect_entry (Some dielectric)
  = Err (ValueError dielectric_shape_message).
Proof.
  unfold resolve_dielectric. cbn [mbind Result_bind].
  destruct dielectric as [d|v|m]; intros Hshape.
  - destruct Hshape.
  - apply convert_vector_other, Hshape.
  - apply convert_matrix_other, Hshape.
Qed.

(** Both entry points read the dielectric through [resolve_dielectric] only. *)
Lemma kumagai_efnv_dielectric (defect_entry : DefectEntry) (d1 d2 : option Dielectric)
    radius excluded defect_outcar bulk_outcar kwargs :
  resolve_dielectric defect_entry d1 = resolve_dielectric defect_entry d2 ->
  kumagai_efnv defect_entry d1 radius excluded defect_outcar bulk_outcar kwargs
  = kumagai_efnv defect_entry d2 radius excluded defect_outcar bulk_outcar kwargs.
Proof. unfold kumagai_efnv. intros ->. reflexivity. Qed.

Lemma freysoldt_dielectric (defect_entry : DefectEntry) (d1 d2 : option Dielectric)
    defect_locpot bulk_locpot kwargs :
  resolve_dielectric defect_entry d1 = resolve_dielectric defect_entry d2 ->
  freysoldt_correction_result defect_entry d1 defect_locpot bulk_locpot kwargs
  = freysoldt_correction_result defect_entry d2 defect_locpot bulk_locpot kwargs.
Proof. unfold freysoldt_correction_result. intros ->. reflexivity. Qed.

(** C5: for a positive (finite) scalar d, the dielectric given as d, as
    [d, d, d] or as diag(d, d, d) is normalised to the same 3x3 tensor, so
    either entry point returns the same outcome, correction energy included,
    for the three spellings; a sequence of another length or a matrix of
    another shape makes either entry point fail with the validation error. *)
Theorem dielectric_shape_insensitive (defect_entry : DefectEntry) (d : float)
    radius excluded defect_outcar bulk_outcar plot filename style_file kwargs
    defect_locpot bulk_locpot axis fnv_kwargs :
  positive_finite d = true ->
  let kumagai given :=
    get_kumagai_correction defect_entry (Some given) radius excluded
      defect_outcar bulk_outcar plot filename style_file kwargs in
  let freysoldt given :=
    get_freysoldt_correction defect_entry (Some given) defect_locpot bulk_locpot
      plot filename axis style_file fnv_kwargs in
  (_convert_dielectric_to_tensor (DScalar d) = Ok (diag3 d d d) /\
   _convert_dielectric_to_tensor (DVector [d; d; d]) = Ok (diag3 d d d) /\
   _convert_dielectric_to_tensor (DMatrix (diag3 d d d)) = Ok (diag3 d d d)) /\
  (kumagai (DScalar d) = kumagai (DVector [d; d; d]) /\
   kumagai (DScalar d) = kumagai (DMatrix (diag3 d d d))) /\
  (freysoldt (DScalar d) = freysoldt (DVector [d; d; d]) /\
   freysoldt (DScalar d) = freysoldt (DMatrix (diag3 d d d))) /\
  (forall other,
     match other with
     | DScalar _ => False
     | DVector v => length v <> 3%nat
     | DMatrix m => ~ shape_3x3 m
     end ->
     kumagai other = Err (ValueError dielectric_shape_message) /\
     freysoldt other = Err (ValueError dielectric_shape_message)).
Proof.
  intros Hd kumagai freysoldt.
  destruct (resolve_dielectric_isotropic defect_entry d Hd) as (Hs & Hv & Hm).
  split; [|split; [|split]].
  - split; [exact (convert_scalar d Hd)|].
    split; [reflexivity | exact (convert_matrix _ (shape_diag3 d d d))].
  - unfold kumagai, get_kumagai_correction.
    split; f_equal; apply kumagai_efnv_dielectric; congruence.
  - unfold freysoldt, get_freysoldt_correction.
    split; f_equal; apply freysoldt_dielectric; congruence.
  - intros other Hshape.
    pose proof (resolve_dielectric_other defect_entry other Hshape) as Hres.
    unfold kumagai, get_kumagai_correction, kumagai_efnv,
      freysoldt, get_freysoldt_correction, freysoldt_correction_result.
    rewrite Hres. split; reflexivity.
Qed.
End DielectricClaims.

Section InputClaims.
Context {carriers : Carriers} {collaborators : Collaborators}.

Implicit Types (defect_entry : DefectEntry) (dielectric : option Dielectric).
Implicit Types (given : option (PmgInput Locpot PlanarDict)).

Lemma resolve_dielectric_missing defect_entry :
  md_dielectric (calculation_metadata defect_entry) = None ->
  resolve_dielectric defect_entry None
  = Err (ValueError (missing_message "Dielectric constant" "dielectric")).
Proof. unfold resolve_dielectric. intros ->. reflexivity. Qed.

Lemma locpot_or_metadata_missing given key display_name :
  absent given ->
  locpot_or_metadata given None key display_name
  = Err (ValueError (missing_message display_name key)).
Proof.
  destruct given as [a|]; cbn; [intros ->|intros _]; reflexivity.
Qed.

Lemma site_potentials_missing dir_type key display_name :
  site_potentials None None dir_type key display_name
  = Err (ValueError (missing_message display_name key)).
Proof. reflexivity. Qed.


(** The messages name the missing quantity. *)
Lemma missing_message_names (var_name display_name : string) :
  exists rest, missing_message var_name display_name = var_name +:+ rest.
Proof. unfold missing_message. eexists. reflexivity. Qed.


(** Whatever else is passed, a missing required input leaves no result. *)
Lemma missing_input_no_result defect_entry dielectric radius excluded defect_outcar
    bulk_outcar plot filename style_file kwargs defect_locpot bulk_locpot axis fnv_kwargs :
  let md := calculation_metadata defect_entry in
  ((dielectric = None /\ md_dielectric md = None) \/
   (defect_outcar = None /\ md_defect_site_potentials md = None) \/
   (bulk_outcar = None /\ md_bulk_site_potentials md = None) ->
   raises (get_kumagai_correction defect_entry dielectric radius excluded
             defect_outcar bulk_outcar plot filename style_file kwargs)) /\
  ((dielectric = None /\ md_dielectric md = None) \/
   (absent defect_locpot /\ md_defect_locpot_dict md = None) \/
   (absent bulk_locpot /\ md_bulk_locpot_dict md = None) ->
   raises (get_freysoldt_correction defect_entry dielectric defect_locpot bulk_locpot
             plot filename axis style_file fnv_kwargs)).
Proof.
  intros md. split; intros Hmissing.
  - unfold get_kumagai_correction, kumagai_efnv, raises.
    destruct Hmissing as [[-> Hmd]|[[-> Hmd]|[-> Hmd]]].
    + rewrite (resolve_dielectric_missing _ Hmd). eauto.
    + destruct (resolve_dielectric _ _); cbn; [|eauto].
      fold md. rewrite Hmd. cbn. eauto.
    + destruct (resolve_dielectric _ _); cbn; [|eauto].
      destruct (site_potentials defect_outcar _ _ _ _); cbn; [|eauto].
      fold md. rewrite Hmd. cbn. eauto.
  - unfold get_freysoldt_correction, freysoldt_correction_result, raises.
    destruct Hmissing as [[-> Hmd]|[[Habs Hmd]|[Habs Hmd]]].
    + rewrite (resolve_dielectric_missing _ Hmd). eauto.
    + destruct (resolve_dielectric _ _); cbn; [|eauto].
      fold md. rewrite Hmd, (locpot_or_metadata_missing _ _ _ Habs). cbn. eauto.
    + destruct (resolve_dielectric _ _); cbn; [|eauto].
      destruct (locpot_or_metadata defect_locpot _ _ _); cbn; [|eauto].
      fold md. rewrite Hmd, (locpot_or_metadata_missing _ _ _ Habs). cbn. eauto.
Qed.
End InputClaims.

Section LatticeClaims.
Context {carriers : Carriers} {collaborators : Collaborators}.

(** The entry point once its inputs are resolved. *)
Lemma get_kumagai_correction_resolved (defect_entry : DefectEntry) dielectric radius
    excluded defect_outcar bulk_outcar plot filename style_file kwargs
    (tensor : Matrix) (defect_pots bulk_pots : list float) :
  let md := calculation_metadata defect_entry in
  let defect_supercell := remove_oxidation_states (_get_defect_supercell defect_entry) in
  let bulk_supercell := remove_oxidation_states (_get_bulk_supercell defect_entry) in
  resolve_dielectric defect_entry dielectric = Ok tensor ->
  site_potentials defect_outcar (md_defect_site_potentials md)
    "defect" "defect_site_potentials" "Defect OUTCAR (for atomic site potentials)"
  = Ok defect_pots ->
  site_potentials bulk_outcar (md_bulk_site_potentials md)
    "bulk" "bulk_site_potentials" "Bulk OUTCAR (for atomic site potentials)"
  = Ok bulk_pots ->
  get_kumagai_correction defect_entry dielectric radius excluded defect_outcar bulk_outcar
    plot filename style_file kwargs
  = (bulk ← match_bulk_lattice bulk_supercell defect_supercell;
     efnv ← kumagai_efnv_correction defect_entry tensor defect_pots bulk_pots
              defect_supercell bulk radius excluded kwargs;
     kumagai_return defect_entry efnv plot filename style_file).
Proof.
  intros md defect_supercell bulk_supercell Hres Hdefect Hbulk.
  unfold get_kumagai_correction, kumagai_efnv. rewrite Hres. cbn [mbind Result_bind].
  fold md. rewrite Hdefect. cbn [mbind Result_bind]. rewrite Hbulk.
  cbn [mbind Result_bind]. fold defect_supercell bulk_supercell.
  destruct (match_bulk_lattice bulk_supercell defect_supercell); reflexivity.
Qed.

(** C4: with the inputs resolved, get_kumagai_correction on supercells
    whose lattices differ (1) raises the ValueError about different lattices
    when np.allclose with atol=1e-2 fails, and (2) otherwise goes on with the
    bulk supercell rescaled to the volume of the defect lattice; (3) in every
    case doped_make_efnv_correction refuses lattices that still differ, so a
    returned result was computed on identical lattices. *)
Theorem lattice_precondition (defect_entry : DefectEntry) dielectric radius
    excluded defect_outcar bulk_outcar plot filename style_file kwargs
    (tensor : Matrix) (defect_pots bulk_pots : list float) :
  let md := calculation_metadata defect_entry in
  let defect_supercell := remove_oxidation_states (_get_defect_supercell defect_entry) in
  let bulk_supercell := remove_oxidation_states (_get_bulk_supercell defect_entry) in
  let rescaled := scale_lattice bulk_supercell (volume (lattice defect_supercell)) in
  let kumagai :=
    get_kumagai_correction defect_entry dielectric radius excluded defect_outcar
      bulk_outcar plot filename style_file kwargs in
  resolve_dielectric defect_entry dielectric = Ok tensor ->
  site_potentials defect_outcar (md_defect_site_potentials md)
    "defect" "defect_site_potentials" "Defect OUTCAR (for atomic site potentials)"
  = Ok defect_pots ->
  site_potentials bulk_outcar (md_bulk_site_potentials md)
    "bulk" "bulk_site_potentials" "Bulk OUTCAR (for atomic site potentials)"
  = Ok bulk_pots ->
  lattice_eq (lattice bulk_supercell) (lattice defect_supercell) = false ->
  (np_allclose (matrix (lattice bulk_supercell)) (matrix (lattice defect_supercell))
     1e-2%float = false ->
   kumagai = Err (ValueError
                    (lattice_mismatch_message (lattice_str (lattice bulk_supercell))
                       (lattice_str (lattice defect_supercell))))) /\
  (np_allclose (matrix (lattice bulk_supercell)) (matrix (lattice defect_supercell))
     1e-2%float = true ->
   kumagai
   = (efnv ← kumagai_efnv_correction defect_entry tensor defect_pots bulk_pots
               defect_supercell rescaled radius excluded kwargs;
      kumagai_return defect_entry efnv plot filename style_file) /\
   (lattice_eq (lattice defect_supercell) (lattice rescaled) = false ->
    kumagai = Err (SupercellError
                     "The lattice constants for defect and perfect models are different"))) /\
  (forall returned, kumagai = Ok returned ->
     np_allclose (matrix (lattice bulk_supercell)) (matrix (lattice defect_supercell))
       1e-2%float = true /\
     lattice_eq (lattice defect_supercell) (lattice rescaled) = true).
Proof.
  intros md defect_supercell bulk_supercell rescaled kumagai Hres Hdefect Hbulk Hne.
  assert (Hrun := get_kumagai_correction_resolved defect_entry dielectric radius
            excluded defect_outcar bulk_outcar plot filename style_file kwargs
            tensor defect_pots bulk_pots Hres Hdefect Hbulk).
  cbn zeta in Hrun. fold defect_supercell bulk_supercell kumagai in Hrun.
  unfold match_bulk_lattice in Hrun. rewrite Hne in Hrun. cbn [negb] in Hrun.
  fold rescaled in Hrun.
  destruct (np_allclose _ _ _) eqn:Hclose; cbn [mbind Result_bind] in Hrun.
  - split; [discriminate|]. split.
    + intros _. split; [exact Hrun|]. intros Hstill. rewrite Hrun.
      unfold kumagai_efnv_correction, doped_make_efnv_correction.
      cbn [structure calc_results_for_eFNV]. rewrite Hstill. reflexivity.
    + intros returned Hret. split; [reflexivity|].
      rewrite Hrun in Hret. invert_bind Hret.
      unfold kumagai_efnv_correction in Hstep.
      apply doped_make_efnv_correction_inv in Hstep. exact (proj1 Hstep).
  - split; [intros _; exact Hrun|]. split; [discriminate|].
    intros returned Hret. rewrite Hrun in Hret. discriminate.
Qed.
End LatticeClaims.

Section PlotClaims.
Context {carriers : Carriers} {collaborators : Collaborators}.

(** C9: plot_FNV on plot data whose pot_plot_data entry is empty raises the
    ValueError; whenever plot_FNV returns, the entry was there and not
    empty. *)
Theorem plot_FNV_needs_pot_plot_data (plot_data : PlotData) (title : option string)
    (ax : option MplObject) (style_file : option string) :
  (plot_data !! "pot_plot_data" = Some ∅ ->
   plot_FNV plot_data title ax style_file = Err (ValueError no_pot_plot_data_message)) /\
  (forall drawn, plot_FNV plot_data title ax style_file = Ok drawn ->
     exists pot_plot_data,
       plot_data !! "pot_plot_data" = Some pot_plot_data /\ pot_plot_data <> ∅).
Proof.
  unfold plot_FNV, getitem. split.
  - intros ->. reflexivity.
  - intros drawn Hrun.
    destruct (plot_data !! "pot_plot_data") as [ppd|]; cbn in Hrun; [|discriminate].
    case_bool_decide as Hempty; [discriminate|]. eauto.
Qed.

Lemma freysoldt_alone (defect_entry : DefectEntry) dielectric defect_locpot bulk_locpot
    axis style_file fnv_kwargs :
  get_freysoldt_correction defect_entry dielectric defect_locpot bulk_locpot
    false None axis style_file fnv_kwargs
  = Alone <$> freysoldt_correction_result defect_entry dielectric defect_locpot
                bulk_locpot fnv_kwargs.
Proof.
  unfold get_freysoldt_correction.
  destruct (freysoldt_correction_result _ _ _ _ _); reflexivity.
Qed.

Lemma kumagai_alone (defect_entry : DefectEntry) dielectric radius excluded
    defect_outcar bulk_outcar style_file kwargs :
  get_kumagai_correction defect_entry dielectric radius excluded defect_outcar bulk_outcar
    false None style_file kwargs
  = (Alone ∘ kumagai_correction_result)
      <$> kumagai_efnv defect_entry dielectric radius excluded defect_outcar
            bulk_outcar kwargs.
Proof.
  unfold get_kumagai_correction.
  destruct (kumagai_efnv _ _ _ _ _ _ _); reflexivity.
Qed.

Lemma plot_requested (plot : bool) (filename : option string) :
  plot = true \/ filename <> None ->
  negb plot && bool_decide (filename = None) = false.
Proof.
  intros [->|Hfile]; [reflexivity|].
  rewrite (bool_decide_eq_false_2 _ Hfile). apply andb_false_r.
Qed.

(** C10: with plot False and filename None either entry point returns the
    CorrectionResult alone; otherwise what it returns is the pair of the
    same CorrectionResult and the matplotlib object, and it does return
    that pair whenever the correction and the plotting succeed. *)
Theorem return_shape (defect_entry : DefectEntry) dielectric radius excluded
    defect_outcar bulk_outcar style_file kwargs defect_locpot bulk_locpot axis fnv_kwargs
    (plot : bool) (filename : option string) :
  let kumagai plot filename :=
    get_kumagai_correction defect_entry dielectric radius excluded defect_outcar
      bulk_outcar plot filename style_file kwargs in
  let freysoldt plot filename :=
    get_freysoldt_correction defect_entry dielectric defect_locpot bulk_locpot
      plot filename axis style_file fnv_kwargs in
  (* plot False, filename None *)
  (forall returned, kumagai false None = Ok returned -> exists r, returned = Alone r) /\
  (forall returned, freysoldt false None = Ok returned -> exists r, returned = Alone r) /\
  (* otherwise *)
  (plot = true \/ filename <> None ->
   (forall returned, kumagai plot filename = Ok returned ->
      exists r fig, returned = WithFigure r fig /\ kumagai false None = Ok (Alone r)) /\
   (forall returned, freysoldt plot filename = Ok returned ->
      exists r fig, returned = WithFigure r fig /\ freysoldt false None = Ok (Alone r)) /\
   (forall efnv fig,
      kumagai_efnv defect_entry dielectric radius excluded defect_outcar bulk_outcar kwargs
      = Ok efnv ->
      kumagai_figure defect_entry efnv filename style_file = Ok fig ->
      kumagai plot filename = Ok (WithFigure (kumagai_correction_result efnv) fig)) /\
   (forall r fig,
      freysoldt_correction_result defect_entry dielectric defect_locpot bulk_locpot
        fnv_kwargs = Ok r ->
      freysoldt_figure r filename axis style_file = Ok fig ->
      freysoldt plot filename = Ok (WithFigure r fig))).
Proof.
  intros kumagai freysoldt. unfold kumagai, freysoldt.
  split; [|split].
  - intros returned. rewrite kumagai_alone. intros Hrun.
    apply fmap_Ok_inv in Hrun. destruct Hrun as (efnv & _ & ->). eauto.
  - intros returned. rewrite freysoldt_alone. intros Hrun.
    apply fmap_Ok_inv in Hrun. destruct Hrun as (r & _ & ->). eauto.
  - intros Hplot. apply plot_requested in Hplot.
    rewrite kumagai_alone, freysoldt_alone.
    unfold get_kumagai_correction, kumagai_return, get_freysoldt_correction.
    rewrite Hplot. split; [|split; [|split]].
    + intros returned Hrun. invert_bind Hrun. invert_bind Hrun.
      injection Hrun as <-. rewrite Hstep. eauto.
    + intros returned Hrun. invert_bind Hrun. invert_bind Hrun.
      injection Hrun as <-. rewrite Hstep. eauto.
    + intros efnv fig -> Hfig. cbn [mbind Result_bind]. rewrite Hfig. reflexivity.
    + intros r fig -> Hfig. cbn [mbind Result_bind]. rewrite Hfig. reflexivity.
Qed.
End PlotClaims.


(** ** What the source fixes of the returned energy *)

Section EnergyFacts.
Context {carriers : Carriers} {collaborators : Collaborators}.

(** The energy that get_kumagai_correction returns is the value of
    pydefect's [correction_energy] on the object built by
    [doped_make_efnv_correction]; the object itself is the metadata. *)
Lemma kumagai_energy_is_forwarded (defect_entry : DefectEntry) dielectric radius
    excluded defect_outcar bulk_outcar plot filename style_file kwargs returned :
  get_kumagai_correction defect_entry dielectric radius excluded defect_outcar
    bulk_outcar plot filename style_file kwargs = Ok returned ->
  exists efnv,
    kumagai_efnv defect_entry dielectric radius excluded defect_outcar bulk_outcar kwargs
    = Ok efnv /\
    let r := match returned with Alone r | WithFigure r _ => r end in
    correction_energy r = efnv_correction_energy efnv /\
    metadata r = MetaKumagai efnv.
Proof.
  unfold get_kumagai_correction, kumagai_return. intros Hrun. invert_bind Hrun.
  exists a. split; [exact Hstep|].
  destruct (negb plot && bool_decide (filename = None)).
  - injection Hrun as <-. split; reflexivity.
  - invert_bind Hrun. injection Hrun as <-. split; reflexivity.
Qed.

(** The energy that get_freysoldt_correction returns is the one computed by
    pymatgen's routine. *)
Lemma freysoldt_energy_is_forwarded (defect_entry : DefectEntry) dielectric
    defect_locpot bulk_locpot plot filename axis style_file fnv_kwargs returned :
  get_freysoldt_correction defect_entry dielectric defect_locpot bulk_locpot
    plot filename axis style_file fnv_kwargs = Ok returned ->
  freysoldt_correction_result defect_entry dielectric defect_locpot bulk_locpot fnv_kwargs
  = Ok (match returned with Alone r | WithFigure r _ => r end).
Proof.
  unfold get_freysoldt_correction. intros Hrun. invert_bind Hrun. rewrite Hstep.
  destruct (negb plot && bool_decide (filename = None)).
  - injection Hrun as <-. reflexivity.
  - invert_bind Hrun. injection Hrun as <-. reflexivity.
Qed.

(** For a neutral defect the object built by [doped_make_efnv_correction]
    has a point-charge term of exactly 0.0 (with the default unit
    conversion), and every model potential that is assigned is 0. *)
Lemma neutral_defect_efnv (calc_results perfect_calc_results : CalcResults)
    (dielectric_tensor : Matrix) radius coords accuracy excluded_indices c :
  doped_make_efnv_correction 0 calc_results perfect_calc_results dielectric_tensor
    radius coords accuracy None excluded_indices = Ok c ->
  point_charge_correction c = 0%float /\
  Forall (fun site =>
            pc_potential site =
              if (defect_region_radius c <? distance site)%float
              then Some 0%float else None)
    (sites c).
Proof.
  intros Hrun. apply doped_make_efnv_correction_inv in Hrun.
  destruct Hrun as (_ & entries & Hentries & ->).
  cbn [point_charge_correction sites defect_region_radius]. split; [reflexivity|].
  apply Forall_fmap. apply collect_sites_spec in Hentries.
  apply Forall2_Forall_r with (1 := Hentries).
  apply Forall_forall. intros dp _ [site0 rel_coord] Hsite.
  assert (Hnone : pc_potential site0 = None).
  { unfold potential_site_of in Hsite.
    invert_bind Hsite. invert_bind Hsite. invert_bind Hsite.
    injection Hsite as <- _. reflexivity. }
  cbn. destruct (_ <? distance site0)%float eqn:Hfar; cbn; rewrite ?Hfar; auto.
Qed.
End EnergyFacts.

(** ** The claims on the small concrete system *)

Lemma dielectric_shape_insensitive_witness :
  Toy.kumagai (Toy.entry "v_Cd_-2" (-2)) (Some (DScalar 9.13%float)) None false
  = Toy.kumagai (Toy.entry "v_Cd_-2" (-2)) (Some (DVector [9.13; 9.13; 9.13]%float)) None false
  /\ Toy.freysoldt (Toy.entry "v_Cd_-2" (-2)) (Some (DScalar 9.13%float)) false None
     = Toy.freysoldt (Toy.entry "v_Cd_-2" (-2)) (Some (DMatrix (diag3 9.13 9.13 9.13))) false None.
Proof.
  assert (Hd : positive_finite 9.13%float = true) by by_run.
  pose proof (dielectric_shape_insensitive (collaborators := Toy.collaborators)
                (Toy.entry "v_Cd_-2" (-2)) 9.13%float None None None None false None None
                Toy.no_kwargs None None None tt Hd) as (_ & Hkumagai & Hfreysoldt & _).
  split; [exact (proj1 Hkumagai) | exact (proj2 Hfreysoldt)].
Defined.


Lemma lattice_precondition_witness :
  Toy.lattices_agree (Toy.bulk_cell "strained") Toy.defect_cell = false
  /\ is_Ok (Toy.kumagai (Toy.entry "strained" (-2)) None None false) = true
  /\ Toy.lattices_agree (Toy.defect_supercell_of (Toy.entry "strained" (-2)))
       (Toy.rescaled_bulk_of (Toy.entry "strained" (-2))) = true.
Proof.
  eassert (Hres : resolve_dielectric (Toy.entry "strained" (-2)) None = Ok _) by by_run.
  eassert (Hrun : Toy.kumagai (Toy.entry "strained" (-2)) None None false = Ok _) by by_run.
  split; [by_run|]. split; [by_run|].
  refine (proj2 (proj2 (proj2 (lattice_precondition (collaborators := Toy.collaborators)
            (Toy.entry "strained" (-2)) None None None None None false None None
            Toy.no_kwargs _ [1; 0.75; 0.75]%float [0.5; 0.5; 0.5]%float Hres eq_refl eq_refl _))
            _ Hrun)).
  by_run.
Defined.

Lemma plot_FNV_needs_pot_plot_data_witness :
  plot_FNV (collaborators := Toy.collaborators) Toy.empty_plot None None None
  = Err (ValueError no_pot_plot_data_message).
Proof.
  refine (proj1 (plot_FNV_needs_pot_plot_data (collaborators := Toy.collaborators)
                   Toy.empty_plot None None None) _).
  by_run.
Defined.

Lemma return_shape_witness :
  exists r fig,
    Toy.kumagai (Toy.entry "v_Cd_-2" (-2)) None None true = Ok (WithFigure r fig)
    /\ Toy.kumagai (Toy.entry "v_Cd_-2" (-2)) None None false = Ok (Alone r).
Proof.
  eassert (Hrun : Toy.kumagai (Toy.entry "v_Cd_-2" (-2)) None None true = Ok _) by by_run.
  pose proof (return_shape (collaborators := Toy.collaborators)
                (Toy.entry "v_Cd_-2" (-2)) None None None None None None Toy.no_kwargs
                None None None tt true None) as (_ & _ & Hplot).
  destruct (proj1 (Hplot (or_introl eq_refl)) _ Hrun) as (r & fig & Hshape & Halone).
  exists r, fig. split; [|exact Halone].
  rewrite <- Hshape. exact Hrun.
Defined.

(** Rescaling to the defect volume does not always make the lattices
    identical: the bulk cell of the entry named [stretched] agrees with the
    defect cell within 0.01 A, is rescaled, and is then refused by
    [doped_make_efnv_correction]. *)
Example rescaling_may_not_suffice :
  Toy.within 1e-2%float
    (matrix (lattice (Toy.bulk_cell "stretched"))) (matrix (lattice Toy.defect_cell))
  = true
  /\ Toy.kumagai (Toy.entry "stretched" (-2)) None None false
     = Err (SupercellError
              "The lattice constants for defect and perfect models are different").
Proof. split; by_run. Qed.

(** * Further properties of the module *)

(** ** Negation on binary64 floats *)

Lemma binary_round_aux_negb (s : bool) (m e : Z) (l : location) :
  binary_round_aux prec emax (negb s) m e l = SFopp (binary_round_aux prec emax s m e l).
Proof.
  unfold binary_round_aux.
  destruct (shr_fexp prec emax m e l) as [mrs' e'].
  destruct (shr_fexp prec emax _ e' loc_Exact) as [mrs'' e''].
  destruct (shr_m mrs''); try reflexivity.
  destruct (e'' <=? emax - prec); reflexivity.
Qed.

Lemma SFmul_opp_r (x y : spec_float) :
  SFmul prec emax x (SFopp y) = SFopp (SFmul prec emax x y).
Proof.
  destruct x as [sx|sx| |sx mx ex], y as [sy|sy| |sy my ey]; cbn [SFmul SFopp];
    try reflexivity; try (destruct sx, sy; reflexivity).
  rewrite <- binary_round_aux_negb. destruct sx, sy; reflexivity.
Qed.

Lemma SFmul_opp_l (x y : spec_float) :
  SFmul prec emax (SFopp x) y = SFopp (SFmul prec emax x y).
Proof.
  destruct x as [sx|sx| |sx mx ex], y as [sy|sy| |sy my ey]; cbn [SFmul SFopp];
    try reflexivity; try (destruct sx, sy; reflexivity).
  rewrite <- binary_round_aux_negb. destruct sx, sy; reflexivity.
Qed.

Lemma mul_opp_r (x y : float) : (x * - y = - (x * y))%float.
Proof.
  apply Prim2SF_inj. rewrite opp_spec, !mul_spec, opp_spec. apply SFmul_opp_r.
Qed.

Lemma mul_opp_l (x y : float) : (- x * y = - (x * y))%float.
Proof.
  apply Prim2SF_inj. rewrite opp_spec, !mul_spec, opp_spec. apply SFmul_opp_l.
Qed.

Lemma opp_involutive (x : float) : (- - x)%float = x.
Proof.
  apply Prim2SF_inj. rewrite !opp_spec.
  destruct (Prim2SF x) as [s|s| |s m e]; cbn; rewrite ?negb_involutive; reflexivity.
Qed.

Lemma SF2Prim_opp (x : spec_float) : SF2Prim (SFopp x) = (- SF2Prim x)%float.
Proof.
  destruct x as [[|]|[|]| |[|] m e]; cbn [SFopp negb SF2Prim]; try reflexivity.
  symmetry. apply opp_involutive.
Qed.

(** [float(-n) = -float(n)] for a nonzero int. *)
Lemma float_of_Z_opp (n : Z) : n <> 0 -> float_of_Z (- n) = (- float_of_Z n)%float.
Proof.
  intros Hn. unfold float_of_Z, binary_normalize.
  destruct n as [|p|p];
    [congruence | change (- Z.pos p) with (Z.neg p) | change (- Z.neg p) with (Z.pos p)];
    cbv iota beta; unfold binary_round.
  - destruct (shl_align _ _ _) as [mz ez].
    change true with (negb false). rewrite binary_round_aux_negb. apply SF2Prim_opp.
  - destruct (shl_align _ _ _) as [mz ez].
    change true with (negb false). rewrite binary_round_aux_negb, SF2Prim_opp.
    symmetry. apply opp_involutive.
Qed.

Section EfnvFurther.
Context {carriers : Carriers} {collaborators : Collaborators}.

Implicit Types (calc_results perfect_calc_results : CalcResults).
Implicit Types (dielectric_tensor : Matrix) (excluded : list Z).

Lemma index_is_Ok {A} (xs : list A) (i : nat) :
  is_Ok (index xs i) = true <-> (i < length xs)%nat.
Proof.
  unfold index. destruct (xs !! i) as [x|] eqn:Hlookup; cbn.
  - split; [|reflexivity]. intros _. apply lookup_lt_is_Some. eauto.
  - split; [discriminate|]. intros Hlt. apply lookup_lt_is_Some in Hlt.
    rewrite Hlookup in Hlt. destruct Hlt; discriminate.
Qed.

Lemma potential_site_of_is_Ok calc_results perfect_calc_results dc (d p : nat) :
  is_Ok (potential_site_of calc_results perfect_calc_results dc d p) = true <->
  (d < length (struct_sites (structure calc_results)))%nat /\
  (d < length (potentials calc_results))%nat /\
  (p < length (potentials perfect_calc_results))%nat.
Proof.
  unfold potential_site_of. rewrite <- !index_is_Ok.
  destruct (index (struct_sites _) d), (index (potentials calc_results) d),
    (index (potentials perfect_calc_results) p); cbn; intuition discriminate.
Qed.

Lemma collect_sites_is_Ok calc_results perfect_calc_results dc excluded mapping :
  is_Ok (collect_sites calc_results perfect_calc_results dc excluded mapping) = true <->
  mapping_in_range calc_results perfect_calc_results excluded mapping.
Proof.
  unfold mapping_in_range. induction mapping as [|[d p] rest IH].
  - cbn. split; [constructor | reflexivity].
  - cbn [collect_sites]. rewrite Forall_cons. cbn [fst snd].
    case_bool_decide as Hin.
    + rewrite IH. intuition.
    + rewrite <- IH, <- (potential_site_of_is_Ok _ _ dc).
      destruct (potential_site_of _ _ _ d p); cbn;
        [destruct (collect_sites _ _ _ _ rest); cbn|];
        intuition (try discriminate).
Qed.

(** X1: what a returned result of doped_make_efnv_correction requires.  A
    lattice mismatch raises SupercellError whatever the other arguments; a
    call that returns had equal lattices and, for every mapped pair whose
    defect index is not excluded, a defect index within the defect structure
    and the defect potentials and a bulk index within the bulk potentials;
    the returned object then has one site for each such pair. *)
Theorem doped_make_efnv_correction_requirements (q : Z) calc_results perfect_calc_results
    dielectric_tensor (radius : option float) (coords : option Coords)
    (accuracy unit_conversion : option float) (excluded_indices : option (list Z)) :
  let run :=
    doped_make_efnv_correction q calc_results perfect_calc_results dielectric_tensor
      radius coords accuracy unit_conversion excluded_indices in
  let mapping := atom_mapping (structure calc_results) (structure perfect_calc_results) in
  (lattice_eq (lattice (structure calc_results))
     (lattice (structure perfect_calc_results)) = false ->
   run = Err (SupercellError
                "The lattice constants for defect and perfect models are different")) /\
  (forall c, run = Ok c ->
     lattice_eq (lattice (structure calc_results))
       (lattice (structure perfect_calc_results)) = true /\
     mapping_in_range calc_results perfect_calc_results (default [] excluded_indices)
       mapping /\
     length (sites c)
     = length (filter (fun dp => Z.of_nat dp.1 ∉ default [] excluded_indices) mapping)).
Proof.
  intros run mapping. split.
  - intros Hlat. unfold run, doped_make_efnv_correction. rewrite Hlat. reflexivity.
  - intros c Hrun. apply doped_make_efnv_correction_inv in Hrun.
    destruct Hrun as (Hlat & entries & Hentries & ->).
    split; [exact Hlat|]. split.
    + eapply collect_sites_is_Ok. fold mapping in Hentries. rewrite Hentries. reflexivity.
    + cbn [sites]. rewrite length_fmap. symmetry.
      eapply Forall2_length, collect_sites_spec, Hentries.
Qed.

Lemma collect_sites_same_members calc_results perfect_calc_results dc
    (excluded excluded' : list Z) mapping :
  (forall i, i ∈ excluded <-> i ∈ excluded') ->
  collect_sites calc_results perfect_calc_results dc excluded mapping
  = collect_sites calc_results perfect_calc_results dc excluded' mapping.
Proof.
  intros Hsame. induction mapping as [|[d p] rest IH]; [reflexivity|].
  cbn [collect_sites]. rewrite IH.
  rewrite (bool_decide_ext _ _ (Hsame (Z.of_nat d))). reflexivity.
Qed.

(** X2: excluded_indices is read as a set: two lists with the same members,
    in any order and with any repetitions, give the same outcome. *)
Theorem excluded_indices_as_set (q : Z) calc_results perfect_calc_results
    dielectric_tensor (radius : option float) (coords : option Coords)
    (accuracy unit_conversion : option float) (excluded excluded' : list Z) :
  (forall i, i ∈ excluded <-> i ∈ excluded') ->
  doped_make_efnv_correction q calc_results perfect_calc_results dielectric_tensor
    radius coords accuracy unit_conversion (Some excluded)
  = doped_make_efnv_correction q calc_results perfect_calc_results dielectric_tensor
      radius coords accuracy unit_conversion (Some excluded').
Proof.
  intros Hsame. unfold doped_make_efnv_correction. cbn [default from_option id].
  rewrite (collect_sites_same_members _ _ _ _ _ _ Hsame). reflexivity.
Qed.

(** X3: an index that is not a key of the atom mapping, a negative one for
    instance, excludes nothing: the outcome is the one without it. *)
Theorem excluding_unmapped_index (q : Z) calc_results perfect_calc_results
    dielectric_tensor (radius : option float) (coords : option Coords)
    (accuracy unit_conversion : option float) (excluded_indices : option (list Z))
    (i : Z) :
  i < 0 \/
  Forall (fun dp => Z.of_nat dp.1 <> i)
    (atom_mapping (structure calc_results) (structure perfect_calc_results)) ->
  doped_make_efnv_correction q calc_results perfect_calc_results dielectric_tensor
    radius coords accuracy unit_conversion (Some (default [] excluded_indices ++ [i]))
  = doped_make_efnv_correction q calc_results perfect_calc_results dielectric_tensor
      radius coords accuracy unit_conversion excluded_indices.
Proof.
  intros Hunmapped.
  assert (Hall : Forall (fun dp : nat * nat => Z.of_nat dp.1 <> i)
                   (atom_mapping (structure calc_results)
                      (structure perfect_calc_results))).
  { destruct Hunmapped as [Hneg|Hall]; [|exact Hall].
    apply Forall_forall. intros dp _. lia. }
  unfold doped_make_efnv_correction.
  change (default [] (Some (default [] excluded_indices ++ [i])))
    with (default [] excluded_indices ++ [i]).
  rewrite collect_sites_exclude.
  replace (filter _ (atom_mapping _ _))
    with (atom_mapping (structure calc_results) (structure perfect_calc_results));
    [reflexivity|].
  clear Hunmapped.
  induction Hall as [|dp rest Hdp Hrest IH]; [reflexivity|].
  rewrite filter_cons_True by exact Hdp. f_equal. exact IH.
Qed.

Lemma collect_sites_no_pc calc_results perfect_calc_results dc excluded mapping entries :
  collect_sites calc_results perfect_calc_results dc excluded mapping = Ok entries ->
  Forall (fun entry => pc_potential entry.1 = None) entries.
Proof.
  intros Hrun. apply collect_sites_spec in Hrun.
  apply Forall2_Forall_r with (1 := Hrun).
  apply Forall_forall. intros dp _ [site0 rel_coord] Hsite.
  unfold potential_site_of in Hsite.
  invert_bind Hsite. invert_bind Hsite. invert_bind Hsite.
  injection Hsite as <- _. reflexivity.
Qed.

(** X4: reversing the sign of a nonzero charge leaves the point-charge
    correction, the radius and the sampled sites as they are and negates
    every model potential, exactly, on binary64 floats. *)
Theorem charge_sign_symmetry (q : Z) calc_results perfect_calc_results
    dielectric_tensor (radius : option float) (coords : option Coords)
    (accuracy unit_conversion : option float) (excluded_indices : option (list Z))
    (c : ExtendedFnvCorrection) :
  q <> 0 ->
  doped_make_efnv_correction q calc_results perfect_calc_results dielectric_tensor
    radius coords accuracy unit_conversion excluded_indices = Ok c ->
  doped_make_efnv_correction (- q) calc_results perfect_calc_results dielectric_tensor
    radius coords accuracy unit_conversion excluded_indices
  = Ok {| charge := - q;
          point_charge_correction := point_charge_correction c;
          defect_region_radius := defect_region_radius c;
          sites := negate_pc_potential <$> sites c;
          defect_coords := defect_coords c |}.
Proof.
  intros Hq Hrun. apply doped_make_efnv_correction_inv in Hrun.
  destruct Hrun as (Hlat & entries & Hentries & ->).
  unfold doped_make_efnv_correction. rewrite Hlat. cbn [negb].
  rewrite Hentries. cbn [mbind Result_bind mret Result_ret].
  cbn [point_charge_correction defect_region_radius sites defect_coords].
  assert (Hq' : - q <> 0) by lia.
  apply Z.eqb_neq in Hq, Hq'. rewrite Hq, Hq'.
  replace ((- q) ^ 2) with (q ^ 2) by lia.
  do 2 f_equal. rewrite <- list_fmap_compose.
  apply Forall_fmap_ext_1.
  eapply Forall_impl; [exact (collect_sites_no_pc _ _ _ _ _ _ Hentries)|].
  intros [site rel_coord] Hnone. cbn [fst] in Hnone.
  unfold compose, assign_pc_potential. rewrite Hq, Hq'.
  destruct (_ <? distance site)%float.
  - unfold negate_pc_potential. cbn. do 2 f_equal.
    assert (Hq0 : q <> 0) by (apply Z.eqb_neq; exact Hq).
    rewrite (float_of_Z_opp q Hq0), mul_opp_r, mul_opp_l. reflexivity.
  - destruct site as [sp dist pot pc]. cbn in Hnone. subst pc. reflexivity.
Qed.

Lemma collect_sites_relabelled calc_results perfect_calc_results perfect_calc_results'
    dc excluded (relabel : nat -> nat) mapping :
  Forall (fun dp => potentials perfect_calc_results' !! relabel dp.2
                    = potentials perfect_calc_results !! dp.2) mapping ->
  collect_sites calc_results perfect_calc_results' dc excluded
    ((fun dp => (dp.1, relabel dp.2)) <$> mapping)
  = collect_sites calc_results perfect_calc_results dc excluded mapping.
Proof.
  induction 1 as [|[d p] rest Hp _ IH]; [reflexivity|].
  cbn [fmap list_fmap collect_sites fst snd]. cbn [fst snd] in Hp.
  change (list_fmap _ _ ?g rest) with (g <$> rest). rewrite IH.
  unfold potential_site_of, index. rewrite Hp. reflexivity.
Qed.

(** X15: the order of the atoms of the bulk supercell does not matter: when
    the bulk potentials are reordered and the atom mapping follows the new
    numbering (the lattice comparison and the defect coordinates being the
    same), doped_make_efnv_correction gives the same outcome. *)
Theorem bulk_atom_order_irrelevant (q : Z) calc_results perfect_calc_results
    perfect_calc_results' dielectric_tensor (radius : option float) (dc : Coords)
    (accuracy unit_conversion : option float) (excluded_indices : option (list Z))
    (relabel : nat -> nat) :
  let mapping := atom_mapping (structure calc_results) (structure perfect_calc_results) in
  lattice_eq (lattice (structure calc_results)) (lattice (structure perfect_calc_results'))
  = lattice_eq (lattice (structure calc_results)) (lattice (structure perfect_calc_results)) ->
  atom_mapping (structure calc_results) (structure perfect_calc_results')
  = (fun dp => (dp.1, relabel dp.2)) <$> mapping ->
  Forall (fun dp => potentials perfect_calc_results' !! relabel dp.2
                    = potentials perfect_calc_results !! dp.2) mapping ->
  doped_make_efnv_correction q calc_results perfect_calc_results' dielectric_tensor
    radius (Some dc) accuracy unit_conversion excluded_indices
  = doped_make_efnv_correction q calc_results perfect_calc_results dielectric_tensor
      radius (Some dc) accuracy unit_conversion excluded_indices.
Proof.
  intros mapping Hlat Hmap Hpots. unfold doped_make_efnv_correction.
  rewrite Hlat, Hmap. cbn [default from_option id].
  rewrite (collect_sites_relabelled _ _ _ _ _ _ _ Hpots). reflexivity.
Qed.
End EfnvFurther.

Section MontyDecodeProperties.
Variable process_decoded : PyVal -> Result PyVal.

Abbreviation decode := (decode_value process_decoded).

Lemma decode_items_keys (items : list (PyKey * PyVal)) :
  (map (fun kv => (kv.1, decode kv.2)) items).*1 = items.*1.
Proof. induction items as [|[k v] rest IH]; cbn; [reflexivity | f_equal; exact IH]. Qed.

Lemma has_key_decode_items (key : string) (items : list (PyKey * PyVal)) :
  has_key key (map (fun kv => (kv.1, decode kv.2)) items) = has_key key items.
Proof. unfold has_key. rewrite decode_items_keys. reflexivity. Qed.

Lemma untagged_decode_items (items : list (PyKey * PyVal)) :
  untagged (map (fun kv => (kv.1, decode kv.2)) items) = untagged items.
Proof. unfold untagged. rewrite !has_key_decode_items. reflexivity. Qed.

Lemma untagged_not_tagged (items : list (PyKey * PyVal)) :
  untagged items = true -> tagged items = false.
Proof.
  unfold untagged, tagged. destruct (has_key "@module" items); [discriminate|reflexivity].
Qed.

Lemma comprehension_objects (items decoded : list PyVal) :
  (forall v r, process_decoded v = Ok r -> exists obj, r = PyObject obj) ->
  comprehension process_decoded items = Ok decoded ->
  length decoded = length items /\ Forall (fun r => exists obj, r = PyObject obj) decoded.
Proof.
  intros Hobj. revert decoded. induction items as [|v rest IH]; intros decoded Hrun.
  - injection Hrun as <-. split; [reflexivity | constructor].
  - cbn [comprehension] in Hrun. invert_bind Hrun. invert_bind Hrun.
    injection Hrun as <-. destruct (IH _ Hstep0) as [Hlen Hall].
    split; [cbn; congruence|]. constructor; [exact (Hobj _ _ Hstep) | exact Hall].
Qed.

Lemma objects_not_tagged (decoded : list PyVal) :
  decoded <> [] ->
  Forall (fun r => exists obj, r = PyObject obj) decoded ->
  forallb tagged_dict decoded = false.
Proof.
  intros Hne Hall. destruct Hall as [|r rest [obj ->] _]; [congruence | reflexivity].
Qed.

(** X5: when the decoder hands back objects, a second call of
    _monty_decode_nested_dicts changes nothing, whether or not some of the
    decodings failed. *)
Theorem monty_decode_idempotent (d : list (PyKey * PyVal)) :
  (forall v r, process_decoded v = Ok r -> exists obj, r = PyObject obj) ->
  _monty_decode_nested_dicts process_decoded (_monty_decode_nested_dicts process_decoded d)
  = _monty_decode_nested_dicts process_decoded d.
Proof.
  intros Hobj.
  assert (Hvalue : forall v, decode (decode v) = decode v).
  { induction v as [repr|obj|items IH|items IH] using PyVal_nested_ind;
      try reflexivity.
    - cbn [decode_value]. destruct (forallb tagged_dict items) eqn:Hall.
      + destruct (comprehension process_decoded items) as [decoded|e] eqn:Hrun.
        * destruct (comprehension_objects _ _ Hobj Hrun) as [Hlen Hobjs].
          destruct decoded as [|r rest].
          -- destruct items; [|discriminate]. cbn. reflexivity.
          -- cbn [decode_value].
             rewrite (objects_not_tagged (r :: rest)) by (congruence || exact Hobjs).
             reflexivity.
        * cbn [decode_value]. rewrite Hall, Hrun. reflexivity.
      + cbn [decode_value]. rewrite Hall. reflexivity.
    - cbn [decode_value]. destruct (untagged items) eqn:Hun.
      + cbn [decode_value]. rewrite untagged_decode_items, Hun. f_equal.
        rewrite map_map. apply map_ext_Forall.
        eapply Forall_impl; [exact IH|]. intros [k v] Hv. cbn in *. rewrite Hv. reflexivity.
      + destruct (tagged items) eqn:Htag.
        * destruct (process_decoded (PyDict items)) as [r|e] eqn:Hrun.
          -- destruct (Hobj _ _ Hrun) as [obj ->]. reflexivity.
          -- cbn [decode_value]. rewrite Hun, Htag, Hrun. reflexivity.
        * cbn [decode_value]. rewrite Hun, Htag. reflexivity. }
  unfold _monty_decode_nested_dicts. rewrite map_map. apply map_ext.
  intros [k v]. cbn. rewrite Hvalue. reflexivity.
Qed.

(** A value with nothing to decode is left as it is. *)
Lemma decode_settled (v : PyVal) : settled v = true -> decode v = v.
Proof.
  induction v as [repr|obj|items IH|items IH] using PyVal_nested_ind;
    try reflexivity.
  - cbn [settled decode_value]. destruct items as [|x rest]; [reflexivity|].
    intros Hnot. apply negb_true_iff in Hnot. rewrite Hnot. reflexivity.
  - cbn [settled decode_value]. destruct (untagged items) eqn:Hun.
    + intros Hall. f_equal. clear Hun.
      induction IH as [|[k v] rest Hv _ IHrest]; [reflexivity|].
      cbn in Hall, Hv |- *. apply andb_true_iff in Hall. destruct Hall as [Hhead Hrest].
      rewrite (Hv Hhead), (IHrest Hrest). reflexivity.
    + intros Hnot. apply negb_true_iff in Hnot. rewrite Hnot. reflexivity.
Qed.

Lemma comprehension_succeeds (items : list PyVal) :
  (forall v, tagged_dict v = true -> exists obj, process_decoded v = Ok (PyObject obj)) ->
  forallb tagged_dict items = true ->
  exists decoded,
    comprehension process_decoded items = Ok decoded /\
    length decoded = length items /\
    Forall (fun r => exists obj, r = PyObject obj) decoded.
Proof.
  intros Hdec. induction items as [|v rest IH]; cbn [forallb comprehension].
  - intros _. exists []. split; [reflexivity|]. split; [reflexivity | constructor].
  - intros Hall. apply andb_true_iff in Hall. destruct Hall as [Hv Hrest].
    destruct (Hdec v Hv) as [obj Hrun]. destruct (IH Hrest) as (decoded & Hruns & Hlen & Hobjs).
    exists (PyObject obj :: decoded). rewrite Hrun. cbn. rewrite Hruns. cbn.
    split; [reflexivity|]. split; [congruence|]. constructor; eauto.
Qed.

(** X6: when the decoder succeeds on every dictionary carrying both tags,
    one call leaves nothing to decode: no dictionary it reaches carries both
    tags and no non-empty list consists of such dictionaries only. *)
Theorem monty_decode_settles (d : list (PyKey * PyVal)) :
  (forall v, tagged_dict v = true -> exists obj, process_decoded v = Ok (PyObject obj)) ->
  Forall (fun kv => settled kv.2 = true) (_monty_decode_nested_dicts process_decoded d).
Proof.
  intros Hdec.
  assert (Hvalue : forall v, settled (decode v) = true).
  { induction v as [repr|obj|items IH|items IH] using PyVal_nested_ind;
      try reflexivity.
    - cbn [decode_value]. destruct (forallb tagged_dict items) eqn:Hall.
      + destruct (comprehension_succeeds items Hdec Hall) as (decoded & -> & Hlen & Hobjs).
        cbn [settled]. destruct decoded as [|r rest]; [reflexivity|].
        rewrite (objects_not_tagged (r :: rest)) by (congruence || exact Hobjs).
        reflexivity.
      + cbn [settled]. destruct items; [discriminate|]. rewrite Hall. reflexivity.
    - cbn [decode_value]. destruct (untagged items) eqn:Hun.
      + cbn [settled]. rewrite untagged_decode_items, Hun. clear Hun.
        induction IH as [|[k v] rest Hv _ IHrest]; [reflexivity|].
        cbn in Hv |- *. rewrite Hv. exact IHrest.
      + destruct (tagged items) eqn:Htag.
        * destruct (Hdec (PyDict items) Htag) as [obj ->]. reflexivity.
        * cbn [settled]. rewrite Hun, Htag. reflexivity. }
  unfold _monty_decode_nested_dicts. apply Forall_fmap, Forall_forall.
  intros [k v] _. cbn. apply Hvalue.
Qed.

End MontyDecodeProperties.

Section EntryPointFurther.
Context {carriers : Carriers} {collaborators : Collaborators}.

(** X8: what _check_if_str_and_get_pmg_obj returns is never a path, and
    the function returns it unchanged when applied to it again, for either
    object type. *)
Theorem check_if_str_idempotent (x y : PmgInput Locpot PlanarDict) (obj_type : ObjType) :
  _check_if_str_and_get_pmg_obj x obj_type = Ok y ->
  (forall path, y <> InPath path) /\
  (forall obj_type', _check_if_str_and_get_pmg_obj y obj_type' = Ok y).
Proof.
  unfold _check_if_str_and_get_pmg_obj.
  destruct x as [path|l|o|dct|type_name b]; try discriminate.
  - destruct obj_type; intros Hrun; apply fmap_Ok_inv in Hrun;
      destruct Hrun as (parsed & _ & ->); split; (discriminate || reflexivity).
  - intros [= <-]. split; [discriminate | reflexivity].
  - intros [= <-]. split; [discriminate | reflexivity].
  - intros [= <-]. split; [discriminate | reflexivity].
Qed.

(** X9: the type check lets a dictionary through for either object type, so
    a dictionary given as defect_outcar ends get_kumagai_correction with an
    AttributeError (no attribute electrostatic_potential), not with the
    TypeError of the check, once the dielectric is resolved. *)
Theorem dict_as_outcar (defect_entry : DefectEntry) dielectric radius excluded
    (planar : PlanarDict) bulk_outcar plot filename style_file kwargs (tensor : Matrix) :
  resolve_dielectric defect_entry dielectric = Ok tensor ->
  _check_if_str_and_get_pmg_obj (InDict planar) outcar = Ok (InDict planar) /\
  get_kumagai_correction defect_entry dielectric radius excluded
    (Some (InDict planar)) bulk_outcar plot filename style_file kwargs
  = Err (AttributeError "electrostatic_potential").
Proof.
  intros Hres. split; [reflexivity|].
  unfold get_kumagai_correction, kumagai_efnv. rewrite Hres. reflexivity.
Qed.

(** X11: plot_FNV raises KeyError for plot data without the pot_plot_data
    key and, when pot_plot_data is not empty, KeyError for the first of x,
    Vr, dft_diff, short_range, check, shift that it lacks; it returns only
    when all six are there. *)
Theorem plot_FNV_key_errors (plot_data : PlotData) (title : option string)
    (ax : option MplObject) (style_file : option string) :
  (plot_data !! "pot_plot_data" = None ->
   plot_FNV plot_data title ax style_file = Err (KeyError "pot_plot_data")) /\
  (forall pot_plot_data,
     plot_data !! "pot_plot_data" = Some pot_plot_data -> pot_plot_data <> ∅ ->
     (forall key, first_missing_key pot_plot_data = Some key ->
        plot_FNV plot_data title ax style_file = Err (KeyError key)) /\
     (forall drawn, plot_FNV plot_data title ax style_file = Ok drawn ->
        Forall (fun key => is_Some (pot_plot_data !! key)) pot_plot_keys)).
Proof.
  unfold plot_FNV, getitem. split; [intros ->; reflexivity|].
  intros ppd -> Hne. cbn [mbind Result_bind].
  rewrite (bool_decide_eq_false_2 _ Hne).
  unfold first_missing_key, pot_plot_keys. cbn [find].
  destruct (ppd !! "x") as [x|] eqn:Hx; cbn;
    [|split; [intros key [= <-]; reflexivity | discriminate]].
  destruct (ppd !! "Vr") as [vr|] eqn:Hvr; cbn;
    [|split; [intros key [= <-]; reflexivity | discriminate]].
  destruct (ppd !! "dft_diff") as [dft|] eqn:Hdft; cbn;
    [|split; [intros key [= <-]; reflexivity | discriminate]].
  destruct (ppd !! "short_range") as [sr|] eqn:Hsr; cbn;
    [|split; [intros key [= <-]; reflexivity | discriminate]].
  destruct (ppd !! "check") as [chk|] eqn:Hchk; cbn;
    [|split; [intros key [= <-]; reflexivity | discriminate]].
  destruct (ppd !! "shift") as [shift|] eqn:Hshift; cbn;
    [|split; [intros key [= <-]; reflexivity | discriminate]].
  split; [discriminate|]. intros drawn _.
  repeat (constructor; [eauto|]). constructor.
Qed.

Lemma plot_FNV_empty_style (plot_data : PlotData) title ax :
  plot_FNV plot_data title ax (Some "") = plot_FNV plot_data title ax None.
Proof. reflexivity. Qed.

Lemma plot_directions_empty_style (r : CorrectionResult) axs directions :
  plot_directions r axs (Some "") directions = plot_directions r axs None directions.
Proof.
  induction directions as [|direction rest IH]; [reflexivity|].
  cbn [plot_directions].
  destruct (fnv_plot_data r direction); cbn [mbind Result_bind]; [|reflexivity].
  destruct (index axs _); cbn [mbind Result_bind]; [|reflexivity].
  destruct (axis_label_dict direction); cbn [mbind Result_bind]; [|reflexivity].
  rewrite plot_FNV_empty_style.
  destruct (plot_FNV _ _ _ None); cbn [mbind Result_bind]; [exact IH | reflexivity].
Qed.

(** X12: an empty string as filename still asks for the figure (the pair is
    returned even with plot False) but nothing is saved, and an empty string
    as style_file selects the default style: both entry points behave as
    with plot True, filename None and style_file None. *)
Theorem empty_filename_and_style (defect_entry : DefectEntry) dielectric radius excluded
    defect_outcar bulk_outcar kwargs defect_locpot bulk_locpot axis fnv_kwargs :
  get_kumagai_correction defect_entry dielectric radius excluded defect_outcar
    bulk_outcar false (Some "") (Some "") kwargs
  = get_kumagai_correction defect_entry dielectric radius excluded defect_outcar
      bulk_outcar true None None kwargs
  /\ get_freysoldt_correction defect_entry dielectric defect_locpot bulk_locpot
       false (Some "") axis (Some "") fnv_kwargs
     = get_freysoldt_correction defect_entry dielectric defect_locpot bulk_locpot
         true None axis None fnv_kwargs.
Proof.
  split.
  - unfold get_kumagai_correction. destruct (kumagai_efnv _ _ _ _ _ _ _); reflexivity.
  - unfold get_freysoldt_correction.
    destruct (freysoldt_correction_result _ _ _ _ _) as [r|e]; [|reflexivity].
    cbn [mbind Result_bind]. cbn [negb andb].
    rewrite bool_decide_eq_false_2 by discriminate.
    unfold freysoldt_figure. destruct axis as [a|]; [reflexivity|].
    destruct plt_subplots_1x3 as [fig axs].
    rewrite plot_directions_empty_style. reflexivity.
Qed.

(** X13: with an axis other than 0, 1 or 2 and a plot asked for,
    get_freysoldt_correction raises KeyError once the correction itself is
    computed; without plot and filename the axis is not looked at and the
    correction is returned. *)
Theorem axis_out_of_range (defect_entry : DefectEntry) dielectric defect_locpot
    bulk_locpot style_file fnv_kwargs (axis : Z) (r : CorrectionResult)
    (plot : bool) (filename : option string) :
  freysoldt_correction_result defect_entry dielectric defect_locpot bulk_locpot fnv_kwargs
  = Ok r ->
  axis < 0 \/ 2 < axis ->
  get_freysoldt_correction defect_entry dielectric defect_locpot bulk_locpot
    false None (Some axis) style_file fnv_kwargs = Ok (Alone r) /\
  (plot = true \/ filename <> None ->
   exists key,
     get_freysoldt_correction defect_entry dielectric defect_locpot bulk_locpot
       plot filename (Some axis) style_file fnv_kwargs = Err (KeyError key)).
Proof.
  intros Hrun Haxis. unfold get_freysoldt_correction. rewrite Hrun.
  cbn [mbind Result_bind]. split; [reflexivity|].
  intros Hplot. rewrite (plot_requested _ _ Hplot). unfold freysoldt_figure.
  destruct (fnv_plot_data r axis) as [pd|e] eqn:Hpd; cbn [mbind Result_bind].
  - unfold axis_label_dict.
    destruct (axis =? 0) eqn:H0; [apply Z.eqb_eq in H0; lia|].
    destruct (axis =? 1) eqn:H1; [apply Z.eqb_eq in H1; lia|].
    destruct (axis =? 2) eqn:H2; [apply Z.eqb_eq in H2; lia|].
    eexists. reflexivity.
  - unfold fnv_plot_data in Hpd. destruct (metadata r) as [efnv|pds].
    + injection Hpd as <-. eexists. reflexivity.
    + destruct (pds !! axis); [discriminate|]. injection Hpd as <-. eexists. reflexivity.
Qed.

(** X14: for a neutral defect and no unit_conversion keyword, the object in
    the metadata of a result of get_kumagai_correction has a point-charge
    correction of exactly 0.0, and each of its sites has model potential 0
    beyond the defect region radius and None otherwise. *)
Theorem neutral_defect_metadata (defect_entry : DefectEntry) dielectric radius
    excluded defect_outcar bulk_outcar plot filename style_file kwargs returned :
  charge_state defect_entry = 0 ->
  kw_unit_conversion kwargs = None ->
  get_kumagai_correction defect_entry dielectric radius excluded defect_outcar
    bulk_outcar plot filename style_file kwargs = Ok returned ->
  let r := match returned with Alone r | WithFigure r _ => r end in
  exists efnv,
    metadata r = MetaKumagai efnv /\
    charge efnv = 0 /\
    point_charge_correction efnv = 0%float /\
    Forall (fun site =>
              pc_potential site =
                if (defect_region_radius efnv <? distance site)%float
                then Some 0%float else None)
      (sites efnv).
Proof.
  intros Hneutral Hkw Hrun.
  destruct (kumagai_energy_is_forwarded _ _ _ _ _ _ _ _ _ _ _ Hrun)
    as (efnv & Hefnv & _ & Hmeta).
  exists efnv. split; [exact Hmeta|].
  unfold kumagai_efnv in Hefnv.
  invert_bind Hefnv. invert_bind Hefnv. invert_bind Hefnv. invert_bind Hefnv.
  unfold kumagai_efnv_correction in Hefnv. rewrite Hneutral, Hkw in Hefnv.
  split.
  - apply doped_make_efnv_correction_inv in Hefnv.
    destruct Hefnv as (_ & entries & _ & ->). reflexivity.
  - exact (neutral_defect_efnv _ _ _ _ _ _ _ _ Hefnv).
Qed.
End EntryPointFurther.

(** ** The further properties on the small concrete system *)

Lemma doped_make_efnv_correction_requirements_witness :
  exists c, Toy.efnv 1 (Some [1]) = Ok c /\ length (sites c) = 2%nat.
Proof.
  eexists. split; [by_run|].
  etransitivity.
  - refine (proj2 (proj2 (proj2 (doped_make_efnv_correction_requirements
                                   (collaborators := Toy.collaborators) 1
                                   (Toy.calc [1; 0.75; 0.75]%float)
                                   (Toy.calc [0.5; 0.5; 0.5]%float)
                                   (diag3 9.13 9.13 9.13) None (Some [0; 0; 0]%float)
                                   None None (Some [1])) _ _))).
    by_run.
  - by_run.
Defined.

Lemma excluded_indices_as_set_witness :
  Toy.efnv 1 (Some [1; 2; 1]) = Toy.efnv 1 (Some [2; 1]).
Proof.
  apply (excluded_indices_as_set (collaborators := Toy.collaborators)).
  intros i. rewrite !elem_of_cons, elem_of_nil. tauto.
Defined.

Lemma excluding_unmapped_index_witness :
  Toy.efnv 1 (Some [-1]) = Toy.efnv 1 None.
Proof.
  apply (excluding_unmapped_index (collaborators := Toy.collaborators) 1 _ _ _ _ _ _ _
           None (-1)).
  left. reflexivity.
Defined.

Lemma charge_sign_symmetry_witness :
  exists c, Toy.efnv 1 None = Ok c /\
    Toy.efnv (- (1)) None
    = Ok {| charge := - (1);
            point_charge_correction := point_charge_correction c;
            defect_region_radius := defect_region_radius c;
            sites := negate_pc_potential <$> sites c;
            defect_coords := defect_coords c |}.
Proof.
  eexists. split; [by_run|].
  apply (charge_sign_symmetry (collaborators := Toy.collaborators) 1);
    [discriminate | by_run].
Defined.

Lemma toy_process_decoded_objects (v r : PyVal) :
  toy_process_decoded v = Ok r -> exists obj, r = PyObject obj.
Proof.
  unfold toy_process_decoded. destruct v as [| | |items]; try discriminate.
  destruct (snd <$> list_find _ items) as [[k [cls| | |]]|]; try discriminate.
  intros [= <-]. eauto.
Qed.

Lemma monty_decode_idempotent_witness :
  _monty_decode_nested_dicts toy_process_decoded
    (_monty_decode_nested_dicts toy_process_decoded toy_metadata)
  = _monty_decode_nested_dicts toy_process_decoded toy_metadata.
Proof.
  exact (monty_decode_idempotent toy_process_decoded toy_metadata
           toy_process_decoded_objects).
Defined.

Lemma monty_decode_settles_witness :
  Forall (fun kv => settled kv.2 = true)
    (_monty_decode_nested_dicts (fun _ => Ok (PyObject "decoded")) toy_metadata).
Proof.
  apply monty_decode_settles. intros v _. exists "decoded". reflexivity.
Defined.

Lemma check_if_str_idempotent_witness :
  _check_if_str_and_get_pmg_obj (collaborators := Toy.collaborators)
    (InOutcar {| electrostatic_potential := Some [-1; -0.75; -0.75]%float |}) locpot
  = Ok (InOutcar {| electrostatic_potential := Some [-1; -0.75; -0.75]%float |}).
Proof.
  refine (proj2 (check_if_str_idempotent (collaborators := Toy.collaborators)
                   (InPath "OUTCAR.gz") _ outcar _) locpot).
  reflexivity.
Defined.

Lemma dict_as_outcar_witness :
  get_kumagai_correction (collaborators := Toy.collaborators) (Toy.entry "v_Cd_+1" 1)
    None None None (Some (InDict ∅)) None false None None Toy.no_kwargs
  = Err (AttributeError "electrostatic_potential").
Proof.
  eassert (Hres : resolve_dielectric (Toy.entry "v_Cd_+1" 1) None = Ok _) by by_run.
  exact (proj2 (dict_as_outcar (collaborators := Toy.collaborators) (Toy.entry "v_Cd_+1" 1)
                  None None None ∅ None false None None Toy.no_kwargs _ Hres)).
Defined.

Lemma axis_out_of_range_witness :
  exists key,
    Toy.freysoldt (Toy.entry "v_Cd_-2" (-2)) None true (Some 5) = Err (KeyError key).
Proof.
  eassert (Hrun : freysoldt_correction_result (collaborators := Toy.collaborators)
                    (Toy.entry "v_Cd_-2" (-2)) None None None tt = Ok _) by by_run.
  refine (proj2 (axis_out_of_range (collaborators := Toy.collaborators)
                   (Toy.entry "v_Cd_-2" (-2)) None None None None tt 5 _ true None Hrun _) _).
  - right. reflexivity.
  - left. reflexivity.
Defined.

Lemma neutral_defect_metadata_witness :
  exists r efnv,
    Toy.kumagai (Toy.entry "v_Cd_0" 0) None None false = Ok (Alone r) /\
    metadata r = MetaKumagai efnv /\ point_charge_correction efnv = 0%float.
Proof.
  eassert (Hrun : Toy.kumagai (Toy.entry "v_Cd_0" 0) None None false = Ok (Alone _))
    by by_run.
  destruct (neutral_defect_metadata (collaborators := Toy.collaborators)
              (Toy.entry "v_Cd_0" 0) None None None None None false None None
              Toy.no_kwargs _ eq_refl eq_refl Hrun)
    as (efnv & Hmeta & _ & Hpc & _).
  eexists. exists efnv. split; [exact Hrun|]. split; [exact Hmeta | exact Hpc].
Defined.

Lemma bulk_atom_order_irrelevant_witness :
  Reordered.efnv Reordered.bulk_reordered = Reordered.efnv Reordered.bulk.
Proof.
  refine (bulk_atom_order_irrelevant (collaborators := Reordered.collaborators) 1
            (Toy.calc [1; 0.75; 0.75]%float) Reordered.bulk Reordered.bulk_reordered
            (diag3 9.13 9.13 9.13) None [0; 0; 0]%float None None None
            Reordered.relabel _ _ _).
  - by_run.
  - by_run.
  - repeat constructor.
Defined.
